(** * OBD dashboard: the ODB and authentication controllers

    A shallow embedding of [app/controllers/odb/odb.py],
    [app/controllers/auth.py] and [app/models/odb/session.py].

    The controllers are methods over an ORM session.  Here the ORM session is
    an explicit state [DB]: the tables the unit of work sees, and the list of
    operations issued against it (queries, adds, flushes, commits).  A
    controller method is a function from a [DB] to an outcome (a returned
    value or a raised exception) and the [DB] it leaves behind.

    A call to [LOGGER] writes a log line, which is no part of the store; the
    one call that spreads the request into keyword arguments can fail and is
    modelled, the others pass fixed keywords or the columns of a row and are
    left out.  Of the failures of the store, the refusal of a second session
    row with a stored id (the primary key) is modelled; a lost connection and
    the like are not. *)

From stdpp Require Import base strings gmap list.
From Stdlib Require Import ZArith String Ascii.

Local Open Scope string_scope.
Local Open Scope Z_scope.
Local Open Scope list_scope.

(** ** Python values and built-ins used by the controllers *)

Module Py.

(** [str.replace(old, new)] for a one-character [old]. *)
Fixpoint str_replace_char (old : ascii) (new : string) (s : string) : string :=
  match s with
  | EmptyString => EmptyString
  | String c rest =>
      if Ascii.eqb c old
      then new +:+ str_replace_char old new rest
      else String c (str_replace_char old new rest)
  end.

(** The slice [s[:n]]. *)
Fixpoint str_slice_to (n : nat) (s : string) : string :=
  match n, s with
  | O, _ => EmptyString
  | S _, EmptyString => EmptyString
  | S m, String c rest => String c (str_slice_to m rest)
  end.

(** Truth value of a [str]: only the empty string is falsy. *)
Definition truthy (s : string) : bool := negb (String.eqb s "").

(** Truth value of the result of [dict.get]: [None] is falsy. *)
Definition truthy_opt (o : option string) : bool :=
  match o with
  | None => false
  | Some s => truthy s
  end.

(** [list(d.keys())]. *)
Definition dict_keys {V} (d : gmap string V) : list string :=
  fst <$> map_to_list d.

(** [x in l] for a list of strings. *)
Definition list_contains (x : string) (l : list string) : bool :=
  existsb (String.eqb x) l.

(** [any(filter(f, l))] over strings: [filter] keeps the elements on which
    [f] is truthy, and [any] asks for a truthy element among those. *)
Definition any_filter (f : string -> bool) (l : list string) : bool :=
  existsb truthy (List.filter f l).

End Py.

(** ** Exceptions *)

(** A value of a message dictionary: marshmallow reports lists of messages
    per field, the authentication failure a single string. *)
Inductive msgval :=
| MsgStr (s : string)
| MsgList (l : list string).

Inductive exn :=
| ODBControllerError (msg : string)
| AuthControllerException (messages : gmap string msgval)
| KeyError (key : string)
| IndexError
| AttributeError
| AssertionError
| TypeError
| ValueError (msg : string)
| UnicodeEncodeError
| IntegrityError.

Inductive outcome (A : Type) :=
| Return (a : A)
| Raise (e : exn).
Arguments Return {A} a.
Arguments Raise {A} e.

(** ** Data model *)

(** A [datetime], as a number of microseconds. *)
Definition datetime := Z.

(** A sensor value; the controllers pass values through unchanged. *)
Abbreviation value := string (only parsing).

Module User.
Record t := mk {
  id : Z;
  email : string;
  password : string;
  first_name : string;
  last_name : string }.
End User.

(** [ODBSession] of [app/models/odb/session.py]: table [odb_session]. *)
Module ODBSession.
Record t := mk {
  id : string;
  user_id : Z;
  date : datetime }.

(** Width of the primary key column, [String(15)]. *)
Definition id_column_width : nat := 15.
End ODBSession.

(** Modelled from the spec: the reading models ([GPSReading], [EngineLoad],
    [EngineRPM], [FuelLevel], [Speed]) live in modules not covered here.
    "each row references a session, has a timestamp, and one or more numeric
    values". *)
Module GPSReading.
Record t := mk {
  session_id : string;
  lat : value;
  lng : value;
  date : datetime }.
End GPSReading.

Module Reading.
Record t := mk {
  session_id : string;
  val : value;
  date : datetime }.
End Reading.

Inductive table :=
| TUser | TSession | TGPS | TEngineLoad | TEngineRPM | TSpeed | TFuelLevel.

(** Operations issued on the ORM session. *)
Inductive db_op :=
| OpQuery (t : table)
| OpAdd (t : table)
| OpFlush
| OpCommit.

Record Tables := mkTables {
  users : list User.t;
  odb_session : list ODBSession.t;
  gps_readings : list GPSReading.t;
  engine_load_readings : list Reading.t;
  engine_rpm_readings : list Reading.t;
  speed_readings : list Reading.t;
  fuel_level_readings : list Reading.t }.

Record DB := mkDB {
  tbl : Tables;
  log : list db_op }.

#[global] Instance table_eq_dec : EqDecision table.
Proof. solve_decision. Defined.

#[global] Instance db_op_eq_dec : EqDecision db_op.
Proof. solve_decision. Defined.

(** ** The controller monad: state [DB], exceptions [exn] *)

Definition M (A : Type) : Type := DB -> outcome A * DB.

Definition ret {A} (a : A) : M A := fun db => (Return a, db).

Definition raise {A} (e : exn) : M A := fun db => (Raise e, db).

Definition bind {A B} (m : M A) (k : A -> M B) : M B :=
  fun db =>
    match m db with
    | (Return a, db') => k a db'
    | (Raise e, db') => (Raise e, db')
    end.

(** [try: body  except (handled): handler]. *)
Definition try_except {A} (body : M A) (handled : exn -> bool) (handler : M A) : M A :=
  fun db =>
    match body db with
    | (Return a, db') => (Return a, db')
    | (Raise e, db') => if handled e then handler db' else (Raise e, db')
    end.

Declare Scope ctl_scope.
Delimit Scope ctl_scope with ctl.
Notation "'let*' x ':=' m 'in' k" := (bind m (fun x => k))
  (at level 10, x name, m at level 100, k at level 200) : ctl_scope.
Notation "m ';;' k" := (bind m (fun _ => k))
  (at level 100, k at level 200, right associativity) : ctl_scope.
Local Open Scope ctl_scope.

(** [d[k]]. *)
Definition dict_getitem (d : gmap string string) (k : string) : M string :=
  match d !! k with
  | Some v => ret v
  | None => raise (KeyError k)
  end.

(** *** Primitive operations of the ORM session *)

Definition db_log (op : db_op) : M unit :=
  fun db => (Return tt, mkDB (tbl db) (log db ++ [op])).

Definition db_flush : M unit := db_log OpFlush.

Definition db_commit : M unit := db_log OpCommit.

(** [query(User).filter(User.email == email).first()]. *)
Definition query_user_by_email (email : string) : M (option User.t) :=
  fun db =>
    (Return (List.find (fun u => String.eqb (User.email u) email) (users (tbl db))),
     mkDB (tbl db) (log db ++ [OpQuery TUser])).

(** [query(ODBSession).filter(ODBSession.id == sid).first()]. *)
Definition query_session_by_id (sid : string) : M (option ODBSession.t) :=
  fun db =>
    (Return (List.find (fun s => String.eqb (ODBSession.id s) sid) (odb_session (tbl db))),
     mkDB (tbl db) (log db ++ [OpQuery TSession])).

Definition with_odb_session (f : list ODBSession.t -> list ODBSession.t) (t : Tables) : Tables :=
  mkTables (users t) (f (odb_session t)) (gps_readings t) (engine_load_readings t)
    (engine_rpm_readings t) (speed_readings t) (fuel_level_readings t).

Definition with_gps_readings (f : list GPSReading.t -> list GPSReading.t) (t : Tables) : Tables :=
  mkTables (users t) (odb_session t) (f (gps_readings t)) (engine_load_readings t)
    (engine_rpm_readings t) (speed_readings t) (fuel_level_readings t).

Definition with_engine_load_readings (f : list Reading.t -> list Reading.t) (t : Tables) : Tables :=
  mkTables (users t) (odb_session t) (gps_readings t) (f (engine_load_readings t))
    (engine_rpm_readings t) (speed_readings t) (fuel_level_readings t).

Definition with_engine_rpm_readings (f : list Reading.t -> list Reading.t) (t : Tables) : Tables :=
  mkTables (users t) (odb_session t) (gps_readings t) (engine_load_readings t)
    (f (engine_rpm_readings t)) (speed_readings t) (fuel_level_readings t).

Definition with_speed_readings (f : list Reading.t -> list Reading.t) (t : Tables) : Tables :=
  mkTables (users t) (odb_session t) (gps_readings t) (engine_load_readings t)
    (engine_rpm_readings t) (f (speed_readings t)) (fuel_level_readings t).

Definition with_fuel_level_readings (f : list Reading.t -> list Reading.t) (t : Tables) : Tables :=
  mkTables (users t) (odb_session t) (gps_readings t) (engine_load_readings t)
    (engine_rpm_readings t) (speed_readings t) (f (fuel_level_readings t)).

(** [db_session.add(row)]: the row joins its table in the unit of work. *)
Definition db_add (t : table) (upd : Tables -> Tables) : M unit :=
  fun db => (Return tt, mkDB (upd (tbl db)) (log db ++ [OpAdd t])).

(** [id] is the primary key of [odb_session]: a row whose id is stored
    already is refused with [IntegrityError].  The refusal is raised here, at
    the add, where the store would raise it at the flush that follows. *)
Definition id_taken (sid : string) (sessions : list ODBSession.t) : bool :=
  existsb (fun s => String.eqb (ODBSession.id s) sid) sessions.

Definition add_session (s : ODBSession.t) : M unit :=
  fun db =>
    if id_taken (ODBSession.id s) (odb_session (tbl db))
    then (Raise IntegrityError, db)
    else db_add TSession (with_odb_session (fun l => l ++ [s])) db.

Definition add_gps (r : GPSReading.t) : M unit :=
  db_add TGPS (with_gps_readings (fun l => l ++ [r])).

Definition add_engine_load (r : Reading.t) : M unit :=
  db_add TEngineLoad (with_engine_load_readings (fun l => l ++ [r])).

Definition add_engine_rpm (r : Reading.t) : M unit :=
  db_add TEngineRPM (with_engine_rpm_readings (fun l => l ++ [r])).

Definition add_speed (r : Reading.t) : M unit :=
  db_add TSpeed (with_speed_readings (fun l => l ++ [r])).

Definition add_fuel_level (r : Reading.t) : M unit :=
  db_add TFuelLevel (with_fuel_level_readings (fun l => l ++ [r])).

(** ** Session ids of CSV uploads *)

(** [str(ts).replace('.', '')[:12]] applied to the text [ts] of the start
    time's epoch seconds. *)
Definition gen_session_id (ts : string) : string :=
  Py.str_slice_to 12 (Py.str_replace_char "."%char "" ts).

(** The session id as the specification words it: drop the dots of the
    decimal text, keep the first 12 characters. *)
Definition spec_session_id (ts : string) : string :=
  string_of_list_ascii
    (firstn 12 (List.filter (fun c => negb (Ascii.eqb c "."%char)) (list_ascii_of_string ts))).

(** ** CSV uploads *)

(** A row of the data frame read from the upload, with the columns that
    [CSV_COLUM_SENSOR_MAP] selects. *)
Module CsvRow.
Record t := mk {
  time : string;
  lat : value;
  lng : value;
  engine_load : value;
  engine_rpm : value;
  speed : value;
  fuel_level : value }.
End CsvRow.

(** [csv.iloc[0]]: the first row; an empty frame has none. *)
Definition iloc0 (csv : list CsvRow.t) : M CsvRow.t :=
  match csv with
  | [] => raise IndexError
  | row :: _ => ret row
  end.

(** [for x in l: add(x)]. *)
Fixpoint add_all {A} (add : A -> M unit) (l : list A) : M unit :=
  match l with
  | [] => ret tt
  | x :: rest => add x ;; add_all add rest
  end.

Definition flush_if (flush : bool) : M unit :=
  if flush then db_flush else ret tt.

(** ** Sensor sub-controllers *)

Section SubControllers.

(** [BaseODBController._resolve_date_from_csv_row], defined in a module not
    covered here: the time a CSV row was recorded at. *)
Variable _resolve_date_from_csv_row : CsvRow.t -> datetime.

(** Modelled from the spec: [GPSController], [EngineController] and
    [FuelController] live in modules not covered here.  "Each exposes: (a)
    register-single(session, value(s), timestamp) -> inserted row; (b)
    register-from-csv(session, table, flush=bool) -> bulk inserted rows,
    mapping fixed CSV column names to row fields", "deferring a single flush
    until each sub-controller's batch is added". *)
Definition register_gps_reading (session : ODBSession.t) (lat lng : value) (date : datetime)
  : M GPSReading.t :=
  let row := GPSReading.mk (ODBSession.id session) lat lng date in
  add_gps row ;; ret row.

Definition register_single (add : Reading.t -> M unit)
  (session : ODBSession.t) (v : value) (date : datetime) : M Reading.t :=
  let row := Reading.mk (ODBSession.id session) v date in
  add row ;; ret row.

Definition register_fuel_level := register_single add_fuel_level.

Definition register_load := register_single add_engine_load.

Definition register_rpm := register_single add_engine_rpm.

Definition gps_of_row (session : ODBSession.t) (r : CsvRow.t) : GPSReading.t :=
  GPSReading.mk (ODBSession.id session) (CsvRow.lat r) (CsvRow.lng r)
    (_resolve_date_from_csv_row r).

Definition reading_of_row (column : CsvRow.t -> value) (session : ODBSession.t) (r : CsvRow.t)
  : Reading.t :=
  Reading.mk (ODBSession.id session) (column r) (_resolve_date_from_csv_row r).

Definition register_gps_from_csv (session : ODBSession.t) (csv : list CsvRow.t) (flush : bool)
  : M (list GPSReading.t) :=
  let rows := List.map (gps_of_row session) csv in
  add_all add_gps rows ;; flush_if flush ;; ret rows.

Definition register_from_csv (add : Reading.t -> M unit) (column : CsvRow.t -> value)
  (session : ODBSession.t) (csv : list CsvRow.t) (flush : bool) : M (list Reading.t) :=
  let rows := List.map (reading_of_row column session) csv in
  add_all add rows ;; flush_if flush ;; ret rows.

Definition register_load_from_csv := register_from_csv add_engine_load CsvRow.engine_load.

Definition register_rpm_from_csv := register_from_csv add_engine_rpm CsvRow.engine_rpm.

Definition register_speed_from_csv := register_from_csv add_speed CsvRow.speed.

Definition register_fuel_level_from_csv := register_from_csv add_fuel_level CsvRow.fuel_level.

End SubControllers.

(** Modelled from the spec: [SessionController] lives in a module not covered
    here.  "Resolve or create the session for this user using a
    client-supplied session token (get-or-create keyed by user id + token)".
    The row of [ODBSession] has the columns [id], [user_id] and [date] only,
    so the token is the row's [id]; [date] takes the column default, the
    time [utcnow] of the insert.  The insert is the one of [add_session]:
    the primary key refuses a token that is the id of another user's
    session. *)
Module SessionController.

Definition matches (user_id : Z) (token : string) (s : ODBSession.t) : bool :=
  String.eqb (ODBSession.id s) token && Z.eqb (ODBSession.user_id s) user_id.

Definition get_or_create (user_id : Z) (utcnow : datetime) (token : string) : M ODBSession.t :=
  fun db =>
    let db1 := mkDB (tbl db) (log db ++ [OpQuery TSession]) in
    match List.find (matches user_id token) (odb_session (tbl db)) with
    | Some s => (Return s, db1)
    | None =>
        let s := ODBSession.mk token user_id utcnow in
        (add_session s ;; ret s) db1
    end.

End SessionController.

(** ** ODB controller *)

Section ODBController.

(** The constants of [app.constants.odb], a module not covered here: the
    request keys of the sensors ([ODBSensorLabels]) and the prefix
    of the keys that carry sensor names ([ODBSensorPrefixes.FULL_NAME]). *)
Variables LATITUDE LONGITUDE LEVEL LOAD RPM : string.
Variable FULL_NAME : string.

Variable _resolve_date_from_csv_row : CsvRow.t -> datetime.

(** [str(dt.timestamp())]: the text Python prints for the epoch seconds of
    [dt], a float. *)
Variable timestamp_str : datetime -> string.

Definition _resolve_user (data : gmap string string) : M User.t :=
  let user_email := data !! "eml" in
  if negb (Py.truthy_opt user_email)
  then raise (ODBControllerError "User email not found")
  else
    let* user := query_user_by_email (default "" user_email) in
    match user with
    | None => raise (ODBControllerError "User does not exist")
    | Some u => ret u
    end.

(** [re.compile(f'{FULL_NAME}.*').match]: the key starts with the prefix
    (read as literal text). *)
Definition full_name_match (key : string) : bool := String.prefix FULL_NAME key.

Definition has_full_name_keys (data : gmap string string) : bool :=
  Py.any_filter full_name_match (Py.dict_keys data).

(** [LOGGER.info(message, **kwargs)]: the method takes the logger as [self]
    and the message as [event], so a keyword of either name is a second
    value for that parameter, a [TypeError]. *)
Definition logger_info_kwargs (kwargs : gmap string string) : M unit :=
  match kwargs !! "event", kwargs !! "self" with
  | None, None => ret tt
  | _, _ => raise TypeError
  end.

Definition process_sensor_params (utcnow now : datetime) (data : gmap string string) : M unit :=
  logger_info_kwargs data ;;
  if has_full_name_keys data then ret tt
  else
    let* user := _resolve_user data in
    let* token := dict_getitem data "session" in
    let* session := SessionController.get_or_create (User.id user) utcnow token in
    let data_keys := Py.dict_keys data in
    (if Py.list_contains LATITUDE data_keys && Py.list_contains LONGITUDE data_keys
     then
       let* lat := dict_getitem data LATITUDE in
       let* lng := dict_getitem data LONGITUDE in
       let* gps_reading := register_gps_reading session lat lng now in
       ret tt
     else ret tt) ;;
    (if Py.list_contains LEVEL data_keys
     then
       let* v := dict_getitem data LEVEL in
       let* fuel_level := register_fuel_level session v now in
       ret tt
     else ret tt) ;;
    (if Py.list_contains LOAD data_keys
     then
       let* v := dict_getitem data LOAD in
       let* load := register_load session v now in
       ret tt
     else ret tt) ;;
    (if Py.list_contains RPM data_keys
     then
       let* v := dict_getitem data RPM in
       let* rpm := register_rpm session v now in
       ret tt
     else ret tt).

(** The session id that [process_csv] derives from the data frame. *)
Definition csv_session_id (csv : list CsvRow.t) : option string :=
  match csv with
  | [] => None
  | row :: _ => Some (gen_session_id (timestamp_str (_resolve_date_from_csv_row row)))
  end.

(** [process_csv] from the data frame on (lines 132 to 153): [csv] is the
    frame that [pandas.read_csv] returned for the upload. *)
Definition process_csv (user : User.t) (csv : list CsvRow.t) : M unit :=
  let* row := iloc0 csv in
  let start_datetime := _resolve_date_from_csv_row row in
  let gen_session_id := gen_session_id (timestamp_str start_datetime) in
  let* existing := query_session_by_id gen_session_id in
  match existing with
  | Some _ => ret tt
  | None =>
      let session := ODBSession.mk gen_session_id (User.id user) start_datetime in
      add_session session ;;
      db_flush ;;
      register_gps_from_csv _resolve_date_from_csv_row session csv true ;;
      register_load_from_csv _resolve_date_from_csv_row session csv true ;;
      register_rpm_from_csv _resolve_date_from_csv_row session csv true ;;
      register_speed_from_csv _resolve_date_from_csv_row session csv true ;;
      register_fuel_level_from_csv _resolve_date_from_csv_row session csv true ;;
      db_commit
  end.

End ODBController.

(** ** Authentication controller *)

(** A [str] is represented by its bytes in UTF-8.  A lone surrogate (U+D800
    to U+DFFF) has no encoding in UTF-8; it is represented by the three bytes
    the scheme would give it: 237, a byte from 160 to 191, a continuation
    byte.  No other character starts with these two bytes. *)
Fixpoint has_surrogate (s : string) : bool :=
  match s with
  | EmptyString => false
  | String c rest =>
      match rest with
      | EmptyString => false
      | String d _ =>
          (Nat.eqb (nat_of_ascii c) 237
           && Nat.leb 160 (nat_of_ascii d) && Nat.leb (nat_of_ascii d) 191)
          || has_surrogate rest
      end
  end.

(** [s.encode('utf8')]. *)
Definition str_encode_utf8 (s : string) : M string :=
  if has_surrogate s then raise UnicodeEncodeError else ret s.

(** The outcome of a call that does not touch the store. *)
Definition lift {A} (o : outcome A) : M A := fun db => (o, db).

Module LoginData.
Record t := mk {
  email : string;
  password : string }.
End LoginData.

Section AuthController.

(** [LoginSchema().load]: the loaded fields, or the messages of the
    [ValidationError].  The schema lives in a module not covered here. *)
Variable LoginSchema_load : gmap string string -> gmap string msgval + LoginData.t.

(** [bcrypt.checkpw]: the verdict, or the exception it raises on a hash it
    cannot read. *)
Variable checkpw : string -> string -> outcome bool.

(** Modelled from the spec: [UserController.get_user] lives in a module not
    covered here.  "Looks up user by email"; an absent user is [None]. *)
Definition get_user (email : string) : M (option User.t) :=
  query_user_by_email email.

(** [user.password], where [user] may be [None]. *)
Definition getattr_password (user : option User.t) : M string :=
  match user with
  | None => raise AttributeError
  | Some u => ret (User.password u)
  end.

(** [assert b]. *)
Definition py_assert (b : bool) : M unit :=
  if b then ret tt else raise AssertionError.

Definition is_assertion_or_attribute_error (e : exn) : bool :=
  match e with
  | AssertionError | AttributeError => true
  | _ => false
  end.

Definition incorrect_login : gmap string msgval :=
  {[ "invalid" := MsgStr "Incorrect user and/or password" ]}.

Definition login (data : gmap string string) : M (option User.t) :=
  match LoginSchema_load data with
  | inl messages => raise (AuthControllerException messages)
  | inr loaded_data =>
      let* user := get_user (LoginData.email loaded_data) in
      try_except
        (let* password := str_encode_utf8 (LoginData.password loaded_data) in
         let* hashed := getattr_password user in
         let* verdict := lift (checkpw password hashed) in
         py_assert verdict)
        is_assertion_or_attribute_error
        (raise (AuthControllerException incorrect_login)) ;;
      ret user
  end.

End AuthController.

(** ** Vocabulary of the statements *)

(** The store after one more operation was recorded, its tables untouched. *)
Definition logged (op : db_op) (db : DB) : DB :=
  mkDB (tbl db) (log db ++ [op]).

(** The rows a live request asks to persist, by sensor. *)
Definition gps_rows_of (lat_key lng_key : string) (data : gmap string string)
  (session : ODBSession.t) (now : datetime) : list GPSReading.t :=
  match data !! lat_key, data !! lng_key with
  | Some lat, Some lng => [GPSReading.mk (ODBSession.id session) lat lng now]
  | _, _ => []
  end.

Definition rows_of (key : string) (data : gmap string string)
  (session : ODBSession.t) (now : datetime) : list Reading.t :=
  match data !! key with
  | Some v => [Reading.mk (ODBSession.id session) v now]
  | None => []
  end.

(** The request can be spread into the keyword arguments of the logger:
    none of its keys names a parameter of the logging method. *)
Definition loggable (data : gmap string string) : Prop :=
  data !! "event" = None /\ data !! "self" = None.

(** Number of times [op] was issued in a run of operations. *)
Definition count_op (op : db_op) (ops : list db_op) : nat :=
  count_occ db_op_eq_dec ops op.

(** The operations a CSV upload of [n] rows issues before it commits: the
    lookup of the session, the new session and its flush, then one batch of
    [n] rows and a flush per sensor. *)
Definition csv_ops (n : nat) : list db_op :=
  [OpQuery TSession; OpAdd TSession; OpFlush]
  ++ repeat (OpAdd TGPS) n ++ [OpFlush]
  ++ repeat (OpAdd TEngineLoad) n ++ [OpFlush]
  ++ repeat (OpAdd TEngineRPM) n ++ [OpFlush]
  ++ repeat (OpAdd TSpeed) n ++ [OpFlush]
  ++ repeat (OpAdd TFuelLevel) n ++ [OpFlush].

(** ** Sample data *)

Module Sample.

(** Request keys as an OBD logging application sends them. *)
Definition LATITUDE : string := "kff1006".
Definition LONGITUDE : string := "kff1005".
Definition LEVEL : string := "k2f".
Definition LOAD : string := "k4".
Definition RPM : string := "kc".
Definition FULL_NAME : string := "userFullName".

Definition alice : User.t := User.mk 1 "alice@example.org" "hash-a" "Alice" "A".

Definition bob : User.t := User.mk 2 "bob@example.org" "hash-b" "Bob" "B".

Definition empty_tables : Tables := mkTables [alice; bob] [] [] [] [] [] [].

Definition db0 : DB := mkDB empty_tables [].

Definition live_request : gmap string string :=
  {[ "eml" := "alice@example.org"; "session" := "1609459200000";
     "kff1006" := "-5.83"; "kff1005" := "-35.2"; "kc" := "1500" ]}.

Definition bare_request : gmap string string :=
  {[ "eml" := "alice@example.org"; "session" := "1609459200000" ]}.

Definition no_session_request : gmap string string :=
  {[ "eml" := "alice@example.org"; "kc" := "1500" ]}.

Definition no_email_request : gmap string string :=
  {[ "session" := "1609459200000"; "kc" := "1500" ]}.

Definition empty_email_request : gmap string string :=
  {[ "eml" := ""; "session" := "1609459200000" ]}.

Definition unknown_email_request : gmap string string :=
  {[ "eml" := "carol@example.org"; "session" := "1609459200000" ]}.

Definition metadata_request : gmap string string :=
  {[ "eml" := "alice@example.org"; "session" := "1609459200000";
     "userFullName0c" := "Engine RPM" ]}.

Definition live_session : ODBSession.t := ODBSession.mk "1609459200000" 1 40.

(** The store once a live request of [alice] resolved its session. *)
Definition db_after_resolution : DB :=
  mkDB (with_odb_session (fun l => l ++ [live_session]) empty_tables)
    [OpQuery TUser; OpQuery TSession; OpAdd TSession].

(** Times of CSV rows are whole seconds here; the text of the epoch seconds
    is the one Python prints for such a float. *)
Definition resolve_date (r : CsvRow.t) : datetime :=
  match CsvRow.time r with
  | "01-Jan-2021 00:00:00.000" => 1609459200
  | _ => 1609459260
  end.

Definition timestamp_str (dt : datetime) : string :=
  match dt with
  | 1609459200 => "1609459200.0"
  | _ => "1609459260.0"
  end.

Definition row1 : CsvRow.t :=
  CsvRow.mk "01-Jan-2021 00:00:00.000" "-5.83" "-35.2" "20.0" "1500" "40" "75.5".

Definition row2 : CsvRow.t :=
  CsvRow.mk "01-Jan-2021 00:00:01.000" "-5.84" "-35.3" "21.0" "1600" "42" "75.4".

Definition csv : list CsvRow.t := [row1; row2].

Definition csv_session : ODBSession.t := ODBSession.mk "16094592000" 1 1609459200.

Definition db_with_csv_session : DB :=
  mkDB (with_odb_session (fun l => l ++ [csv_session]) empty_tables) [].

(** A schema that asks for both fields, and a hash check by equality. *)
Definition LoginSchema_load (data : gmap string string) : gmap string msgval + LoginData.t :=
  match data !! "email", data !! "password" with
  | Some e, Some p => inr (LoginData.mk e p)
  | None, _ => inl {[ "email" := MsgList ["Missing data for required field."] ]}
  | _, None => inl {[ "password" := MsgList ["Missing data for required field."] ]}
  end.

Definition checkpw (password hashed : string) : outcome bool :=
  if String.prefix "hash-" hashed
  then Return (String.eqb ("hash-" +:+ password) hashed)
  else Raise (ValueError "Invalid salt").

Definition good_login : gmap string string :=
  {[ "email" := "alice@example.org"; "password" := "a" ]}.

Definition wrong_password_login : gmap string string :=
  {[ "email" := "alice@example.org"; "password" := "b" ]}.

Definition unknown_user_login : gmap string string :=
  {[ "email" := "carol@example.org"; "password" := "a" ]}.

(** Requests that carry a key named like a parameter of the logger. *)
Definition metadata_request_event : gmap string string :=
  <["event" := "start"]> metadata_request.

Definition live_request_event : gmap string string :=
  <["event" := "start"]> live_request.

Definition no_session_request_event : gmap string string :=
  <["event" := "start"]> no_session_request.

Definition bare_request_event : gmap string string :=
  <["event" := "start"]> bare_request.

(** The lone surrogate U+D800. *)
Definition lone_surrogate : string :=
  String "237"%char (String "160"%char (String "128"%char "")).

Definition surrogate_login : gmap string string :=
  {[ "email" := "carol@example.org"; "password" := lone_surrogate ]}.

(** A store in which [bob] has a session. *)
Definition bob_session : ODBSession.t := ODBSession.mk "1609459300000" 2 50.

Definition db_with_bob_session : DB :=
  mkDB (with_odb_session (fun l => l ++ [bob_session]) empty_tables) [].

End Sample.

(** * Properties *)

(** ** Strings and dictionaries *)

Lemma str_slice_to_length (n : nat) (s : string) :
  (String.length (Py.str_slice_to n s) <= n)%nat.
Proof.
  revert s. induction n as [|n IH]; intros [|c s]; simpl; try lia.
  specialize (IH s). lia.
Qed.

Lemma str_slice_to_firstn (n : nat) (s : string) :
  list_ascii_of_string (Py.str_slice_to n s) = firstn n (list_ascii_of_string s).
Proof.
  revert s. induction n as [|n IH]; intros [|c s]; simpl; try reflexivity.
  by rewrite IH.
Qed.

Lemma str_replace_char_drop (old : ascii) (s : string) :
  list_ascii_of_string (Py.str_replace_char old "" s)
  = List.filter (fun c => negb (Ascii.eqb c old)) (list_ascii_of_string s).
Proof.
  induction s as [|c s IH]; simpl; [reflexivity|].
  destruct (Ascii.eqb c old); simpl; [|by rewrite IH].
  change (String.append "" (Py.str_replace_char old "" s))
    with (Py.str_replace_char old "" s).
  exact IH.
Qed.

Lemma gen_session_id_refines (ts : string) : gen_session_id ts = spec_session_id ts.
Proof.
  unfold gen_session_id, spec_session_id.
  rewrite <- (string_of_list_ascii_of_string (Py.str_slice_to 12 _)).
  by rewrite str_slice_to_firstn, str_replace_char_drop.
Qed.


Lemma in_dict_keys {V} (d : gmap string V) (k : string) :
  In k (Py.dict_keys d) <-> is_Some (d !! k).
Proof.
  unfold Py.dict_keys. rewrite <- list_elem_of_In, list_elem_of_fmap. split.
  - intros [[k' v] [-> Hin]]. apply elem_of_map_to_list in Hin. by exists v.
  - intros [v Hv]. exists (k, v). split; [reflexivity|]. by apply elem_of_map_to_list.
Qed.

Lemma list_contains_In (x : string) (l : list string) :
  Py.list_contains x l = true <-> In x l.
Proof.
  unfold Py.list_contains. rewrite existsb_exists. split.
  - intros [y [Hin Heq]]. apply String.eqb_eq in Heq. by subst.
  - intros Hin. exists x. split; [done|apply String.eqb_refl].
Qed.

Lemma list_contains_present {V} (d : gmap string V) (k : string) (v : V) :
  d !! k = Some v -> Py.list_contains k (Py.dict_keys d) = true.
Proof. intros H. apply list_contains_In, in_dict_keys. by exists v. Qed.

Lemma list_contains_absent {V} (d : gmap string V) (k : string) :
  d !! k = None -> Py.list_contains k (Py.dict_keys d) = false.
Proof.
  intros H. destruct (Py.list_contains k (Py.dict_keys d)) eqn:E; [|done].
  apply list_contains_In, in_dict_keys in E. destruct E as [v Hv]. congruence.
Qed.


Lemma find_none_iff {A} (p : A -> bool) (l : list A) :
  List.find p l = None <-> (forall x, In x l -> p x = false).
Proof.
  split; [apply find_none|].
  induction l as [|a l IH]; simpl; intros H; [done|].
  rewrite (H a) by auto. apply IH. auto.
Qed.

Lemma find_app_none {A} (p : A -> bool) (l l' : list A) :
  List.find p l = None -> List.find p (l ++ l') = List.find p l'.
Proof.
  induction l as [|a l IH]; simpl; [done|].
  destruct (p a); [discriminate|exact IH].
Qed.

Lemma find_is_some {A} (p : A -> bool) (l : list A) (x : A) :
  In x l -> p x = true -> exists y, List.find p l = Some y.
Proof.
  intros Hin Hp. destruct (List.find p l) as [y|] eqn:E; [by exists y|].
  rewrite (find_none _ _ E x Hin) in Hp. discriminate.
Qed.

(** ** User resolution *)

Lemma resolve_user_not_found (data : gmap string string) (db : DB) :
  Py.truthy_opt (data !! "eml") = false ->
  _resolve_user data db = (Raise (ODBControllerError "User email not found"), db).
Proof. intros H. unfold _resolve_user. by rewrite H. Qed.

Lemma truthy_iff (s : string) : Py.truthy s = true <-> s <> "".
Proof. unfold Py.truthy. by rewrite negb_true_iff, String.eqb_neq. Qed.

Lemma resolve_user_query (data : gmap string string) (db : DB) (e : string) :
  data !! "eml" = Some e -> e <> "" ->
  _resolve_user data db =
    match List.find (fun u => String.eqb (User.email u) e) (users (tbl db)) with
    | None => (Raise (ODBControllerError "User does not exist"), logged (OpQuery TUser) db)
    | Some u => (Return u, logged (OpQuery TUser) db)
    end.
Proof.
  intros He Hne. unfold _resolve_user. rewrite He. simpl.
  apply truthy_iff in Hne. rewrite Hne. simpl.
  unfold bind, query_user_by_email, logged.
  by destruct (List.find _ _).
Qed.

(** Resolving a user reads the store: the tables stay as they were. *)
Lemma resolve_user_tables (data : gmap string string) (db db1 : DB) (o : outcome User.t) :
  _resolve_user data db = (o, db1) -> tbl db1 = tbl db.
Proof.
  unfold _resolve_user. destruct (negb _).
  - by intros [= _ <-].
  - unfold bind, query_user_by_email. destruct (List.find _ _); by intros [= _ <-].
Qed.

(** ** Session resolution *)

Lemma id_taken_false (sid : string) (sessions : list ODBSession.t) :
  List.find (fun s => String.eqb (ODBSession.id s) sid) sessions = None ->
  id_taken sid sessions = false.
Proof.
  unfold id_taken. induction sessions as [|a l IH]; simpl; [done|].
  destruct (String.eqb (ODBSession.id a) sid); [discriminate|exact IH].
Qed.

Lemma get_or_create_found (user_id : Z) (utcnow : datetime) (token : string) (db : DB)
    (s : ODBSession.t) :
  List.find (SessionController.matches user_id token) (odb_session (tbl db)) = Some s ->
  SessionController.get_or_create user_id utcnow token db
  = (Return s, logged (OpQuery TSession) db).
Proof. intros H. unfold SessionController.get_or_create. by rewrite H. Qed.

Lemma get_or_create_created (user_id : Z) (utcnow : datetime) (token : string) (db : DB) :
  List.find (SessionController.matches user_id token) (odb_session (tbl db)) = None ->
  id_taken token (odb_session (tbl db)) = false ->
  SessionController.get_or_create user_id utcnow token db
  = (Return (ODBSession.mk token user_id utcnow),
     mkDB (with_odb_session (fun l => l ++ [ODBSession.mk token user_id utcnow]) (tbl db))
       (log db ++ [OpQuery TSession; OpAdd TSession])).
Proof.
  intros H Hfree. unfold SessionController.get_or_create. rewrite H.
  unfold bind, add_session, db_add, ret. simpl. rewrite Hfree. by rewrite <- app_assoc.
Qed.

(** The token is the id of a session of another user: the insert is
    refused. *)
Lemma get_or_create_refused (user_id : Z) (utcnow : datetime) (token : string) (db : DB) :
  List.find (SessionController.matches user_id token) (odb_session (tbl db)) = None ->
  id_taken token (odb_session (tbl db)) = true ->
  SessionController.get_or_create user_id utcnow token db
  = (Raise IntegrityError, logged (OpQuery TSession) db).
Proof.
  intros H Htaken. unfold SessionController.get_or_create. rewrite H.
  unfold bind, add_session. simpl. by rewrite Htaken.
Qed.

Lemma matches_iff (user_id : Z) (token : string) (s : ODBSession.t) :
  SessionController.matches user_id token s = true
  <-> ODBSession.id s = token /\ ODBSession.user_id s = user_id.
Proof.
  unfold SessionController.matches.
  by rewrite andb_true_iff, String.eqb_eq, Z.eqb_eq.
Qed.

Lemma matches_created (user_id : Z) (utcnow : datetime) (token : string) :
  SessionController.matches user_id token (ODBSession.mk token user_id utcnow) = true.
Proof. by apply matches_iff. Qed.

(** What get-or-create leaves behind when it returns: the session it returns
    is a row of the table, keyed by the token and the user, and nothing but
    the session table may have grown, by that row at most. *)
Lemma get_or_create_returns (user_id : Z) (utcnow : datetime) (token : string) (db db' : DB)
    (s : ODBSession.t) :
  SessionController.get_or_create user_id utcnow token db = (Return s, db') ->
  In s (odb_session (tbl db'))
  /\ ODBSession.id s = token /\ ODBSession.user_id s = user_id
  /\ List.find (SessionController.matches user_id token) (odb_session (tbl db')) = Some s
  /\ (odb_session (tbl db') = odb_session (tbl db)
      \/ odb_session (tbl db') = odb_session (tbl db) ++ [s])
  /\ users (tbl db') = users (tbl db)
  /\ gps_readings (tbl db') = gps_readings (tbl db)
  /\ engine_load_readings (tbl db') = engine_load_readings (tbl db)
  /\ engine_rpm_readings (tbl db') = engine_rpm_readings (tbl db)
  /\ speed_readings (tbl db') = speed_readings (tbl db)
  /\ fuel_level_readings (tbl db') = fuel_level_readings (tbl db).
Proof.
  destruct (List.find (SessionController.matches user_id token) (odb_session (tbl db)))
    as [s0|] eqn:E.
  - rewrite (get_or_create_found _ _ _ _ _ E). intros [= <- <-].
    pose proof (find_some _ _ E) as [Hin Hm]. apply matches_iff in Hm as [Hid Hu].
    simpl. tauto.
  - destruct (id_taken token (odb_session (tbl db))) eqn:Ht.
    + rewrite (get_or_create_refused _ _ _ _ E Ht). discriminate.
    + rewrite (get_or_create_created _ _ _ _ E Ht). intros [= <- <-].
      unfold with_odb_session. simpl.
      split; [apply in_or_app; right; by left|].
      do 2 (split; [reflexivity|]).
      split; [|tauto].
      rewrite (find_app_none _ _ _ E). simpl. by rewrite matches_created.
Qed.

(** Get-or-create returns a session, or is refused by the primary key after
    its one lookup. *)
Lemma get_or_create_outcome (user_id : Z) (utcnow : datetime) (token : string) (db : DB) :
  (exists s, fst (SessionController.get_or_create user_id utcnow token db) = Return s)
  \/ SessionController.get_or_create user_id utcnow token db
     = (Raise IntegrityError, logged (OpQuery TSession) db).
Proof.
  destruct (List.find (SessionController.matches user_id token) (odb_session (tbl db)))
    as [s0|] eqn:E.
  - left. exists s0. by rewrite (get_or_create_found _ _ _ _ _ E).
  - destruct (id_taken token (odb_session (tbl db))) eqn:Ht.
    + right. by apply get_or_create_refused.
    + left. eexists. by rewrite (get_or_create_created _ _ _ _ E Ht).
Qed.

(** C8: user resolution raises a domain error that carries a message when
    the request gives no email, the key 'eml' being absent or its value
    empty, which the code reads alike; it raises a domain error when no user
    has the email given; and when a user has it, resolution returns that user
    record, the one the query finds first.  In each case the tables are left
    as they were. *)
Theorem resolve_user_cases (data : gmap string string) (db : DB) :
  (data !! "eml" = None \/ data !! "eml" = Some "" ->
   _resolve_user data db = (Raise (ODBControllerError "User email not found"), db))
  /\ (forall e, data !! "eml" = Some e -> e <> "" ->
      (forall u, In u (users (tbl db)) -> User.email u <> e) ->
      _resolve_user data db
      = (Raise (ODBControllerError "User does not exist"), logged (OpQuery TUser) db))
  /\ (forall e u0, data !! "eml" = Some e -> e <> "" ->
      In u0 (users (tbl db)) -> User.email u0 = e ->
      exists u,
        List.find (fun u => String.eqb (User.email u) e) (users (tbl db)) = Some u
        /\ In u (users (tbl db)) /\ User.email u = e
        /\ _resolve_user data db = (Return u, logged (OpQuery TUser) db)).
Proof.
  split; [|split].
  - intros [H|H]; apply resolve_user_not_found; by rewrite H.
  - intros e He Hne Hnone. rewrite (resolve_user_query _ _ _ He Hne).
    assert (List.find (fun u => String.eqb (User.email u) e) (users (tbl db)) = None) as ->;
      [|reflexivity].
    apply find_none_iff. intros u Hin. apply String.eqb_neq. auto.
  - intros e u0 He Hne Hin Hmail.
    destruct (find_is_some (fun u => String.eqb (User.email u) e) _ u0 Hin) as [u Hu].
    { by apply String.eqb_eq. }
    exists u. pose proof (find_some _ _ Hu) as [Hin' Heq]. apply String.eqb_eq in Heq.
    rewrite (resolve_user_query _ _ _ He Hne), Hu. auto.
Qed.

Lemma resolve_user_cases_witness :
  _resolve_user Sample.no_email_request Sample.db0
  = (Raise (ODBControllerError "User email not found"), Sample.db0)
  /\ _resolve_user Sample.empty_email_request Sample.db0
     = (Raise (ODBControllerError "User email not found"), Sample.db0)
  /\ _resolve_user Sample.unknown_email_request Sample.db0
     = (Raise (ODBControllerError "User does not exist"), logged (OpQuery TUser) Sample.db0)
  /\ exists u, User.email u = "alice@example.org"
     /\ _resolve_user Sample.live_request Sample.db0
        = (Return u, logged (OpQuery TUser) Sample.db0).
Proof.
  split; [|split; [|split]].
  - apply (proj1 (resolve_user_cases Sample.no_email_request Sample.db0)).
    left. reflexivity.
  - apply (proj1 (resolve_user_cases Sample.empty_email_request Sample.db0)).
    right. reflexivity.
  - apply (proj1 (proj2 (resolve_user_cases Sample.unknown_email_request Sample.db0))
             "carol@example.org").
    + reflexivity.
    + discriminate.
    + intros u [<-|[<-|[]]]; discriminate.
  - destruct (proj2 (proj2 (resolve_user_cases Sample.live_request Sample.db0))
                "alice@example.org" Sample.alice) as [u [_ [_ [Hu Hr]]]].
    + reflexivity.
    + discriminate.
    + left. reflexivity.
    + reflexivity.
    + exists u. split; assumption.
Defined.

(** ** Live requests *)

Section LiveRequests.

Variables LATITUDE LONGITUDE LEVEL LOAD RPM : string.
Variable FULL_NAME : string.

Local Abbreviation process_sensor_params' :=
  (process_sensor_params LATITUDE LONGITUDE LEVEL LOAD RPM FULL_NAME).
Local Abbreviation has_full_name_keys' := (has_full_name_keys FULL_NAME).

Lemma logger_then {B} (data : gmap string string) (k : M B) (db : DB) :
  loggable data -> (logger_info_kwargs data ;; k) db = k db.
Proof. intros [He Hs]. unfold bind, logger_info_kwargs. by rewrite He, Hs. Qed.

Lemma logger_type_error {B} (data : gmap string string) (k : M B) (db : DB) :
  is_Some (data !! "event") \/ is_Some (data !! "self") ->
  (logger_info_kwargs data ;; k) db = (Raise TypeError, db).
Proof.
  unfold bind, logger_info_kwargs.
  intros [[v ->]|[v ->]]; [done|]. by destruct (data !! "event").
Qed.




(** The whole effect of a live request once its user and its session are
    resolved: each sensor whose keys are present adds its one row, in the
    order GPS, fuel level, engine load, engine RPM. *)
Lemma process_sensor_params_resolved
    (utcnow now : datetime) (data : gmap string string) (db db1 db2 : DB)
    (u : User.t) (token : string) (session : ODBSession.t) :
  loggable data ->
  has_full_name_keys' data = false ->
  _resolve_user data db = (Return u, db1) ->
  data !! "session" = Some token ->
  SessionController.get_or_create (User.id u) utcnow token db1 = (Return session, db2) ->
  process_sensor_params' utcnow now data db
  = (Return tt,
     mkDB
       (mkTables (users (tbl db2)) (odb_session (tbl db2))
          (gps_readings (tbl db2) ++ gps_rows_of LATITUDE LONGITUDE data session now)
          (engine_load_readings (tbl db2) ++ rows_of LOAD data session now)
          (engine_rpm_readings (tbl db2) ++ rows_of RPM data session now)
          (speed_readings (tbl db2))
          (fuel_level_readings (tbl db2) ++ rows_of LEVEL data session now))
       (log db2
        ++ List.map (fun _ => OpAdd TGPS) (gps_rows_of LATITUDE LONGITUDE data session now)
        ++ List.map (fun _ => OpAdd TFuelLevel) (rows_of LEVEL data session now)
        ++ List.map (fun _ => OpAdd TEngineLoad) (rows_of LOAD data session now)
        ++ List.map (fun _ => OpAdd TEngineRPM) (rows_of RPM data session now))).
Proof.
  intros Hlog Hmeta Hu Hs Hg. unfold process_sensor_params.
  rewrite logger_then by exact Hlog. rewrite Hmeta.
  unfold bind at 1. rewrite Hu.
  unfold bind at 1. unfold dict_getitem at 1. rewrite Hs. unfold ret at 1.
  unfold bind at 1. rewrite Hg. cbv zeta.
  unfold gps_rows_of, rows_of.
  destruct db2 as [[us ss gs ls rs sps fs] lg].
  destruct (data !! LATITUDE) as [lat|] eqn:Elat;
    [rewrite (list_contains_present _ _ _ Elat)|rewrite (list_contains_absent _ _ Elat)];
  (destruct (data !! LONGITUDE) as [lng|] eqn:Elng;
    [rewrite (list_contains_present _ _ _ Elng)|rewrite (list_contains_absent _ _ Elng)]);
  (destruct (data !! LEVEL) as [lvl|] eqn:Elvl;
    [rewrite (list_contains_present _ _ _ Elvl)|rewrite (list_contains_absent _ _ Elvl)]);
  (destruct (data !! LOAD) as [ld|] eqn:Eld;
    [rewrite (list_contains_present _ _ _ Eld)|rewrite (list_contains_absent _ _ Eld)]);
  (destruct (data !! RPM) as [rp|] eqn:Erp;
    [rewrite (list_contains_present _ _ _ Erp)|rewrite (list_contains_absent _ _ Erp)]);
  unfold bind, dict_getitem; rewrite ?Elat, ?Elng, ?Elvl, ?Eld, ?Erp;
  cbn; rewrite ?app_nil_r, <- ?app_assoc; reflexivity.
Qed.

(** A live request leaves the session table as get-or-create left it: the
    sensor rows it adds go to the reading tables only. *)
Lemma process_sensor_params_sessions
    (utcnow now : datetime) (data : gmap string string) (db db1 db2 : DB)
    (u : User.t) (token : string) (session : ODBSession.t) :
  loggable data ->
  has_full_name_keys' data = false ->
  _resolve_user data db = (Return u, db1) ->
  data !! "session" = Some token ->
  SessionController.get_or_create (User.id u) utcnow token db1 = (Return session, db2) ->
  odb_session (tbl (snd (process_sensor_params' utcnow now data db)))
  = odb_session (tbl db2).
Proof.
  intros Hlog Hmeta Hu Hs Hg.
  by rewrite (process_sensor_params_resolved _ _ _ _ _ _ _ _ _ Hlog Hmeta Hu Hs Hg).
Qed.



End LiveRequests.





(** *** The logging call on requests with a key 'event' or 'self' *)

(** C5: the metadata request below carries a key 'event'.  The logging call
    that opens [process_sensor_params] spreads the request into keyword
    arguments and raises [TypeError] on that key, before the test for
    metadata keys: the request does not return, as C5 says it does; the
    store is left as it was. *)
Theorem metadata_request_with_event_key (utcnow now : datetime) (db : DB) :
  is_Some (Sample.metadata_request_event !! "userFullName0c")
  /\ full_name_match Sample.FULL_NAME "userFullName0c" = true
  /\ process_sensor_params Sample.LATITUDE Sample.LONGITUDE Sample.LEVEL Sample.LOAD
       Sample.RPM Sample.FULL_NAME utcnow now Sample.metadata_request_event db
     = (Raise TypeError, db).
Proof. split; [by eexists|]. split; reflexivity. Qed.

(** C7: the request below has a user and a session token that resolve and
    carries both the latitude and the longitude key, and also a key 'event'.
    The logging call raises [TypeError] on it before anything else: no GPS
    reading is stored, where C7 says exactly one is. *)
Theorem gps_request_with_event_key (utcnow now : datetime) (db : DB) :
  is_Some (Sample.live_request_event !! Sample.LATITUDE)
  /\ is_Some (Sample.live_request_event !! Sample.LONGITUDE)
  /\ process_sensor_params Sample.LATITUDE Sample.LONGITUDE Sample.LEVEL Sample.LOAD
       Sample.RPM Sample.FULL_NAME utcnow now Sample.live_request_event db
     = (Raise TypeError, db).
Proof. split; [by eexists|]. split; [by eexists|]. reflexivity. Qed.

(** C9: the request below has a user that resolves and no key 'session', and
    carries a key 'event'.  The logging call raises [TypeError] before the
    user is resolved and before the token is read: the exception is not the
    [KeyError] of the missing token that C9 names. *)
Theorem no_session_request_with_event_key (utcnow now : datetime) (db : DB) :
  Sample.no_session_request_event !! "session" = None
  /\ process_sensor_params Sample.LATITUDE Sample.LONGITUDE Sample.LEVEL Sample.LOAD
       Sample.RPM Sample.FULL_NAME utcnow now Sample.no_session_request_event db
     = (Raise TypeError, db).
Proof. split; reflexivity. Qed.

(** C10: the request below has a user and a session token that resolve and
    none of the sensor keys, and carries a key 'event'.  The logging call
    raises [TypeError] before get-or-create is reached: the request fails and
    no session row is resolved or created, where C10 says the request
    returns with its session in the table. *)
Theorem bare_request_with_event_key (utcnow now : datetime) (db : DB) :
  Sample.bare_request_event !! "session" = Some "1609459200000"
  /\ process_sensor_params Sample.LATITUDE Sample.LONGITUDE Sample.LEVEL Sample.LOAD
       Sample.RPM Sample.FULL_NAME utcnow now Sample.bare_request_event db
     = (Raise TypeError, db).
Proof. split; reflexivity. Qed.

(** ** CSV uploads *)

Ltac add_all_step IH :=
  unfold bind, db_add; simpl; rewrite IH; simpl;
  rewrite <- ?app_assoc; reflexivity.

Lemma add_all_gps (rows : list GPSReading.t) (db : DB) :
  add_all add_gps rows db
  = (Return tt,
     mkDB (with_gps_readings (fun l => l ++ rows) (tbl db))
       (log db ++ repeat (OpAdd TGPS) (List.length rows))).
Proof.
  revert db. unfold add_gps, with_gps_readings.
  induction rows as [|r rows IH]; intros [[us ss gs ls rs sps fs] lg]; simpl.
  - by rewrite !app_nil_r.
  - add_all_step IH.
Qed.

Lemma add_all_engine_load (rows : list Reading.t) (db : DB) :
  add_all add_engine_load rows db
  = (Return tt,
     mkDB (with_engine_load_readings (fun l => l ++ rows) (tbl db))
       (log db ++ repeat (OpAdd TEngineLoad) (List.length rows))).
Proof.
  revert db. unfold add_engine_load, with_engine_load_readings.
  induction rows as [|r rows IH]; intros [[us ss gs ls rs sps fs] lg]; simpl.
  - by rewrite !app_nil_r.
  - add_all_step IH.
Qed.

Lemma add_all_engine_rpm (rows : list Reading.t) (db : DB) :
  add_all add_engine_rpm rows db
  = (Return tt,
     mkDB (with_engine_rpm_readings (fun l => l ++ rows) (tbl db))
       (log db ++ repeat (OpAdd TEngineRPM) (List.length rows))).
Proof.
  revert db. unfold add_engine_rpm, with_engine_rpm_readings.
  induction rows as [|r rows IH]; intros [[us ss gs ls rs sps fs] lg]; simpl.
  - by rewrite !app_nil_r.
  - add_all_step IH.
Qed.

Lemma add_all_speed (rows : list Reading.t) (db : DB) :
  add_all add_speed rows db
  = (Return tt,
     mkDB (with_speed_readings (fun l => l ++ rows) (tbl db))
       (log db ++ repeat (OpAdd TSpeed) (List.length rows))).
Proof.
  revert db. unfold add_speed, with_speed_readings.
  induction rows as [|r rows IH]; intros [[us ss gs ls rs sps fs] lg]; simpl.
  - by rewrite !app_nil_r.
  - add_all_step IH.
Qed.

Lemma add_all_fuel_level (rows : list Reading.t) (db : DB) :
  add_all add_fuel_level rows db
  = (Return tt,
     mkDB (with_fuel_level_readings (fun l => l ++ rows) (tbl db))
       (log db ++ repeat (OpAdd TFuelLevel) (List.length rows))).
Proof.
  revert db. unfold add_fuel_level, with_fuel_level_readings.
  induction rows as [|r rows IH]; intros [[us ss gs ls rs sps fs] lg]; simpl.
  - by rewrite !app_nil_r.
  - add_all_step IH.
Qed.

Lemma count_op_repeat_same (op : db_op) (n : nat) : count_op op (repeat op n) = n.
Proof. by apply count_occ_repeat_eq. Qed.

Lemma count_op_repeat_other (op op' : db_op) (n : nat) :
  op <> op' -> count_op op (repeat op' n) = 0%nat.
Proof. apply count_occ_repeat_neq. Qed.

Lemma count_op_app (op : db_op) (l l' : list db_op) :
  count_op op (l ++ l') = (count_op op l + count_op op l')%nat.
Proof. apply count_occ_app. Qed.

Lemma count_op_csv_ops_commit (n : nat) : count_op OpCommit (csv_ops n) = 0%nat.
Proof.
  unfold csv_ops. rewrite !count_op_app.
  rewrite !count_op_repeat_other by discriminate. reflexivity.
Qed.

Lemma count_op_csv_ops_add (t : table) (n : nat) :
  count_op (OpAdd t) (csv_ops n) = match t with TUser => 0 | TSession => 1 | _ => n end%nat.
Proof.
  unfold csv_ops. rewrite !count_op_app.
  destruct t;
    rewrite ?count_op_repeat_same; rewrite ?count_op_repeat_other by discriminate;
    rewrite ?count_op_repeat_same; simpl; lia.
Qed.

Section CsvUploads.

Variable _resolve_date_from_csv_row : CsvRow.t -> datetime.
Variable timestamp_str : datetime -> string.

Local Abbreviation process_csv' := (process_csv _resolve_date_from_csv_row timestamp_str).
Local Abbreviation csv_session_id' :=
  (csv_session_id _resolve_date_from_csv_row timestamp_str).
Local Abbreviation gps_of_row' := (gps_of_row _resolve_date_from_csv_row).
Local Abbreviation reading_of_row' := (reading_of_row _resolve_date_from_csv_row).

Lemma csv_session_id_first (csv : list CsvRow.t) (sid : string) :
  csv_session_id' csv = Some sid ->
  exists row rest,
    csv = row :: rest
    /\ sid = gen_session_id (timestamp_str (_resolve_date_from_csv_row row)).
Proof.
  destruct csv as [|row rest]; simpl; [discriminate|].
  intros [= <-]. by exists row, rest.
Qed.

Lemma session_id_taken (sid : string) (sessions : list ODBSession.t) (s : ODBSession.t) :
  In s sessions -> ODBSession.id s = sid ->
  exists s', List.find (fun s => String.eqb (ODBSession.id s) sid) sessions = Some s'.
Proof.
  intros Hin Hid. apply (find_is_some _ _ s Hin). by apply String.eqb_eq.
Qed.

Lemma session_id_free (sid : string) (sessions : list ODBSession.t) :
  (forall s, In s sessions -> ODBSession.id s <> sid) ->
  List.find (fun s => String.eqb (ODBSession.id s) sid) sessions = None.
Proof.
  intros H. apply find_none_iff. intros s Hin. apply String.eqb_neq. auto.
Qed.

(** The store a CSV upload leaves behind when its session id is new. *)
Lemma process_csv_fresh (user : User.t) (row : CsvRow.t) (rest : list CsvRow.t) (db : DB) :
  let csv := row :: rest in
  let start_datetime := _resolve_date_from_csv_row row in
  let sid := gen_session_id (timestamp_str start_datetime) in
  let session := ODBSession.mk sid (User.id user) start_datetime in
  List.find (fun s => String.eqb (ODBSession.id s) sid) (odb_session (tbl db)) = None ->
  process_csv' user csv db
  = (Return tt,
     mkDB
       (mkTables (users (tbl db)) (odb_session (tbl db) ++ [session])
          (gps_readings (tbl db) ++ List.map (gps_of_row' session) csv)
          (engine_load_readings (tbl db)
           ++ List.map (reading_of_row' CsvRow.engine_load session) csv)
          (engine_rpm_readings (tbl db)
           ++ List.map (reading_of_row' CsvRow.engine_rpm session) csv)
          (speed_readings (tbl db) ++ List.map (reading_of_row' CsvRow.speed session) csv)
          (fuel_level_readings (tbl db)
           ++ List.map (reading_of_row' CsvRow.fuel_level session) csv))
       (log db ++ csv_ops (List.length csv) ++ [OpCommit])).
Proof.
  intros csv start_datetime sid session Hfree.
  subst csv start_datetime sid session.
  unfold process_csv. cbv zeta.
  unfold bind at 1. unfold iloc0, ret at 1.
  unfold bind at 1. unfold query_session_by_id at 1. rewrite Hfree.
  unfold bind at 1. unfold add_session at 1. cbn [tbl ODBSession.id].
  rewrite (id_taken_false _ _ Hfree).
  unfold register_gps_from_csv, register_load_from_csv, register_rpm_from_csv,
    register_speed_from_csv, register_fuel_level_from_csv, register_from_csv, flush_if.
  cbv beta iota.
  unfold bind, add_session, db_add, db_flush, db_commit, db_log, ret.
  rewrite add_all_gps. cbv beta iota. simpl tbl. simpl log.
  rewrite add_all_engine_load. cbv beta iota. simpl tbl. simpl log.
  rewrite add_all_engine_rpm. cbv beta iota. simpl tbl. simpl log.
  rewrite add_all_speed. cbv beta iota. simpl tbl. simpl log.
  rewrite add_all_fuel_level. cbv beta iota. simpl tbl. simpl log.
  rewrite !length_map. unfold csv_ops.
  f_equal. f_equal. rewrite <- !app_assoc. reflexivity.
Qed.

(** C1: when the session id derived from the first row of the upload is the
    id of a stored session, [process_csv] returns without error after that
    one lookup: no table has changed, and nothing was added, flushed or
    committed. *)
Theorem process_csv_existing_session
    (user : User.t) (csv : list CsvRow.t) (sid : string) (db : DB) (s : ODBSession.t) :
  csv_session_id' csv = Some sid ->
  In s (odb_session (tbl db)) ->
  ODBSession.id s = sid ->
  process_csv' user csv db = (Return tt, logged (OpQuery TSession) db)
  /\ tbl (logged (OpQuery TSession) db) = tbl db
  /\ log (logged (OpQuery TSession) db) = log db ++ [OpQuery TSession].
Proof.
  intros Hsid Hin Hid.
  destruct (csv_session_id_first _ _ Hsid) as (row & rest & -> & ->).
  destruct (session_id_taken _ _ _ Hin Hid) as [s' Hs'].
  repeat split.
  unfold process_csv. cbv zeta.
  unfold bind at 1. unfold iloc0, ret at 1.
  unfold bind at 1. unfold query_session_by_id at 1. by rewrite Hs'.
Qed.

(** C2: when the session id derived from the first row of an upload of N
    rows is the id of no stored session, [process_csv] returns without
    error, the session table has grown by exactly one row with that id and
    the uploading user, each of the GPS, engine-load, engine-RPM, speed and
    fuel-level tables has grown by exactly N rows that all carry that session
    id, and the operations issued end with the one commit: every add, the
    session's and the N of each sensor, comes before it. *)
Theorem process_csv_new_session
    (user : User.t) (csv : list CsvRow.t) (sid : string) (db : DB) :
  csv_session_id' csv = Some sid ->
  (forall s, In s (odb_session (tbl db)) -> ODBSession.id s <> sid) ->
  exists db' session gps load rpm speed fuel ops,
    process_csv' user csv db = (Return tt, db')
    /\ users (tbl db') = users (tbl db)
    /\ odb_session (tbl db') = odb_session (tbl db) ++ [session]
    /\ ODBSession.id session = sid /\ ODBSession.user_id session = User.id user
    /\ gps_readings (tbl db') = gps_readings (tbl db) ++ gps
    /\ List.length gps = List.length csv
    /\ Forall (fun r => GPSReading.session_id r = sid) gps
    /\ engine_load_readings (tbl db') = engine_load_readings (tbl db) ++ load
    /\ List.length load = List.length csv
    /\ Forall (fun r => Reading.session_id r = sid) load
    /\ engine_rpm_readings (tbl db') = engine_rpm_readings (tbl db) ++ rpm
    /\ List.length rpm = List.length csv
    /\ Forall (fun r => Reading.session_id r = sid) rpm
    /\ speed_readings (tbl db') = speed_readings (tbl db) ++ speed
    /\ List.length speed = List.length csv
    /\ Forall (fun r => Reading.session_id r = sid) speed
    /\ fuel_level_readings (tbl db') = fuel_level_readings (tbl db) ++ fuel
    /\ List.length fuel = List.length csv
    /\ Forall (fun r => Reading.session_id r = sid) fuel
    /\ log db' = log db ++ ops ++ [OpCommit]
    /\ count_op OpCommit ops = 0%nat
    /\ count_op (OpAdd TSession) ops = 1%nat
    /\ count_op (OpAdd TGPS) ops = List.length csv
    /\ count_op (OpAdd TEngineLoad) ops = List.length csv
    /\ count_op (OpAdd TEngineRPM) ops = List.length csv
    /\ count_op (OpAdd TSpeed) ops = List.length csv
    /\ count_op (OpAdd TFuelLevel) ops = List.length csv.
Proof.
  intros Hsid Hfree.
  destruct (csv_session_id_first _ _ Hsid) as (row & rest & -> & ->).
  apply session_id_free in Hfree.
  pose proof (process_csv_fresh user row rest db Hfree) as Hrun. cbv zeta in Hrun.
  revert Hrun. generalize (row :: rest). intros csv Hrun.
  eexists _, _, _, _, _, _, _, _.
  split; [exact Hrun|].
  cbn [tbl log users odb_session gps_readings engine_load_readings engine_rpm_readings
       speed_readings fuel_level_readings ODBSession.id ODBSession.user_id].
  repeat match goal with
         | |- _ /\ _ => split
         | |- List.length (List.map _ _) = _ => apply length_map
         | |- Forall _ (List.map _ _) => apply Forall_map, Forall_forall; intros; reflexivity
         | |- count_op _ _ = _ => idtac
         | |- _ = _ => reflexivity
         end.
  - apply count_op_csv_ops_commit.
  - apply (count_op_csv_ops_add TSession).
  - apply (count_op_csv_ops_add TGPS).
  - apply (count_op_csv_ops_add TEngineLoad).
  - apply (count_op_csv_ops_add TEngineRPM).
  - apply (count_op_csv_ops_add TSpeed).
  - apply (count_op_csv_ops_add TFuelLevel).
Qed.

(** C3: the session id [process_csv] derives from the first row of an upload
    is the text of the start time's epoch seconds without its dots, cut to
    its first 12 characters; it is at most 12 characters long, within the 15
    of the session id column; and it is the id [process_csv] looks up and
    gives to the session row it creates. *)
Theorem csv_session_id_spec
    (user : User.t) (row : CsvRow.t) (rest : list CsvRow.t) (db : DB) :
  csv_session_id' (row :: rest)
  = Some (spec_session_id (timestamp_str (_resolve_date_from_csv_row row)))
  /\ (String.length (spec_session_id (timestamp_str (_resolve_date_from_csv_row row)))
      <= 12)%nat
  /\ (String.length (spec_session_id (timestamp_str (_resolve_date_from_csv_row row)))
      <= ODBSession.id_column_width)%nat
  /\ match
       List.find
         (fun s => String.eqb (ODBSession.id s)
                     (spec_session_id (timestamp_str (_resolve_date_from_csv_row row))))
         (odb_session (tbl db))
     with
     | Some _ => process_csv' user (row :: rest) db = (Return tt, logged (OpQuery TSession) db)
     | None =>
         exists db',
           process_csv' user (row :: rest) db = (Return tt, db')
           /\ odb_session (tbl db')
              = odb_session (tbl db)
                ++ [ODBSession.mk
                      (spec_session_id (timestamp_str (_resolve_date_from_csv_row row)))
                      (User.id user) (_resolve_date_from_csv_row row)]
     end.
Proof.
  rewrite <- gen_session_id_refines.
  pose proof (str_slice_to_length 12
                (Py.str_replace_char "."%char "" (timestamp_str (_resolve_date_from_csv_row row))))
    as Hlen.
  fold (gen_session_id (timestamp_str (_resolve_date_from_csv_row row))) in Hlen.
  split; [reflexivity|]. split; [exact Hlen|].
  split; [unfold ODBSession.id_column_width; lia|].
  destruct (List.find _ _) as [s|] eqn:E.
  - unfold process_csv. cbv zeta.
    unfold bind at 1. unfold iloc0, ret at 1.
    unfold bind at 1. unfold query_session_by_id at 1. by rewrite E.
  - eexists. split; [exact (process_csv_fresh user row rest db E)|]. reflexivity.
Qed.

End CsvUploads.

Lemma process_csv_existing_session_witness :
  process_csv Sample.resolve_date Sample.timestamp_str Sample.alice Sample.csv
    Sample.db_with_csv_session
  = (Return tt, logged (OpQuery TSession) Sample.db_with_csv_session).
Proof.
  apply (process_csv_existing_session Sample.resolve_date Sample.timestamp_str Sample.alice
           Sample.csv "16094592000" Sample.db_with_csv_session Sample.csv_session).
  - reflexivity.
  - left. reflexivity.
  - reflexivity.
Defined.

Lemma process_csv_new_session_witness :
  exists db',
    process_csv Sample.resolve_date Sample.timestamp_str Sample.alice Sample.csv Sample.db0
    = (Return tt, db')
    /\ List.length (odb_session (tbl db')) = 1%nat
    /\ List.length (gps_readings (tbl db')) = 2%nat
    /\ List.length (fuel_level_readings (tbl db')) = 2%nat.
Proof.
  destruct (process_csv_new_session Sample.resolve_date Sample.timestamp_str Sample.alice
              Sample.csv "16094592000" Sample.db0)
    as (db' & session & gps & load & rpm & speed & fuel & ops & Hrun & _ & Hs & _ & _
        & Hgps & Hgpsn & _ & _ & _ & _ & _ & _ & _ & _ & _ & _ & Hfuel & Hfueln & _).
  - reflexivity.
  - intros s [].
  - exists db'. split; [exact Hrun|].
    rewrite Hs, Hgps, Hfuel. simpl. rewrite Hgpsn, Hfueln. repeat split.
Defined.

Lemma csv_session_id_spec_witness :
  csv_session_id Sample.resolve_date Sample.timestamp_str Sample.csv = Some "16094592000"
  /\ (String.length "16094592000" <= 12)%nat.
Proof.
  pose proof (csv_session_id_spec Sample.resolve_date Sample.timestamp_str Sample.alice
                Sample.row1 [Sample.row2] Sample.db0) as (Hid & Hlen & _).
  split; [exact Hid|exact Hlen].
Defined.

(** ** Get-or-create of sessions *)

Lemma find_app_some {A} (p : A -> bool) (l l' : list A) (x : A) :
  List.find p l = Some x -> List.find p (l ++ l') = Some x.
Proof.
  induction l as [|a l IH]; simpl; [discriminate|].
  destruct (p a); [done|exact IH].
Qed.

(** C6: when the get-or-create of a live request returns a session row for
    a user id and a token, which it found or appended to the session table,
    the get-or-create of any later request for the same user id and token
    returns that same row and only reads the store, creating no session:
    whatever sessions were appended in between (CSV uploads, live requests
    of this or other users) and whatever was done to the other tables. *)
Theorem get_or_create_idempotent
    (user_id : Z) (utcnow utcnow' : datetime) (token : string) (db db1 db_mid : DB)
    (s : ODBSession.t) (appended : list ODBSession.t) :
  SessionController.get_or_create user_id utcnow token db = (Return s, db1) ->
  odb_session (tbl db_mid) = odb_session (tbl db1) ++ appended ->
  In s (odb_session (tbl db1))
  /\ ODBSession.id s = token /\ ODBSession.user_id s = user_id
  /\ (odb_session (tbl db1) = odb_session (tbl db)
      \/ odb_session (tbl db1) = odb_session (tbl db) ++ [s])
  /\ SessionController.get_or_create user_id utcnow' token db_mid
     = (Return s, logged (OpQuery TSession) db_mid)
  /\ odb_session (tbl (logged (OpQuery TSession) db_mid)) = odb_session (tbl db_mid).
Proof.
  intros Hfirst Hmid.
  destruct (get_or_create_returns _ _ _ _ _ _ Hfirst) as (Hin & Hid & Hu & Hfind & Hss & _).
  repeat split; try assumption.
  apply get_or_create_found. rewrite Hmid. by apply find_app_some.
Qed.

(** The store after [alice]'s first live request, a live request of [bob]
    and a CSV upload. *)
Definition db_later : DB :=
  mkDB
    (with_gps_readings (fun l => l ++ [GPSReading.mk "1609459200000" "-5.83" "-35.2" 41])
       (with_odb_session (fun l => l ++ [Sample.bob_session; Sample.csv_session])
          (tbl Sample.db_after_resolution)))
    [].

Lemma get_or_create_idempotent_witness :
  SessionController.get_or_create 1 99 "1609459200000" db_later
  = (Return Sample.live_session, logged (OpQuery TSession) db_later).
Proof.
  destruct (get_or_create_idempotent 1 40 99 "1609459200000"
              (logged (OpQuery TUser) Sample.db0) Sample.db_after_resolution db_later
              Sample.live_session [Sample.bob_session; Sample.csv_session])
    as (_ & _ & _ & _ & Hsecond & _).
  - reflexivity.
  - reflexivity.
  - exact Hsecond.
Defined.

(** ** Login *)

Section Login.

Variable LoginSchema_load : gmap string string -> gmap string msgval + LoginData.t.
Variable checkpw : string -> string -> outcome bool.

Local Abbreviation login' := (login LoginSchema_load checkpw).

(** The stages of [login]: the schema, the lookup, the encoding of the
    password, the hash check. *)
Lemma login_run (data : gmap string string) (db : DB) :
  login' data db =
    match LoginSchema_load data with
    | inl messages => (Raise (AuthControllerException messages), db)
    | inr loaded =>
        if has_surrogate (LoginData.password loaded)
        then (Raise UnicodeEncodeError, logged (OpQuery TUser) db)
        else
          match List.find (fun u => String.eqb (User.email u) (LoginData.email loaded))
                  (users (tbl db)) with
          | Some u =>
              match checkpw (LoginData.password loaded) (User.password u) with
              | Return true => (Return (Some u), logged (OpQuery TUser) db)
              | Return false =>
                  (Raise (AuthControllerException incorrect_login),
                   logged (OpQuery TUser) db)
              | Raise e =>
                  if is_assertion_or_attribute_error e
                  then (Raise (AuthControllerException incorrect_login),
                        logged (OpQuery TUser) db)
                  else (Raise e, logged (OpQuery TUser) db)
              end
          | None =>
              (Raise (AuthControllerException incorrect_login), logged (OpQuery TUser) db)
          end
    end.
Proof.
  unfold login. destruct (LoginSchema_load data) as [messages|loaded]; [reflexivity|].
  unfold bind, try_except, get_user, query_user_by_email, str_encode_utf8,
    getattr_password, py_assert, lift, ret, raise, logged.
  destruct (has_surrogate _); [reflexivity|].
  destruct (List.find _ _) as [u|]; [|reflexivity].
  destruct (checkpw _ _) as [[|]|e]; try reflexivity.
  by destruct (is_assertion_or_attribute_error e).
Qed.

(** X21: for a payload the schema accepts and whose password encodes to
    UTF-8: when a user has the email and the hash check returns true,
    [login] returns that user; when no user has the email, and when the
    hash check returns false, [login] raises an [AuthControllerException]
    with one and the same message,
    {'invalid': 'Incorrect user and/or password'}.  In each case the store
    was only read. *)
Theorem login_cases (data : gmap string string) (loaded : LoginData.t) (db : DB) :
  LoginSchema_load data = inr loaded ->
  has_surrogate (LoginData.password loaded) = false ->
  (forall u,
     List.find (fun u => String.eqb (User.email u) (LoginData.email loaded))
       (users (tbl db)) = Some u ->
     checkpw (LoginData.password loaded) (User.password u) = Return true ->
     login' data db = (Return (Some u), logged (OpQuery TUser) db))
  /\ (forall u,
        List.find (fun u => String.eqb (User.email u) (LoginData.email loaded))
          (users (tbl db)) = Some u ->
        checkpw (LoginData.password loaded) (User.password u) = Return false ->
        login' data db
        = (Raise (AuthControllerException
                    {[ "invalid" := MsgStr "Incorrect user and/or password" ]}),
           logged (OpQuery TUser) db))
  /\ (List.find (fun u => String.eqb (User.email u) (LoginData.email loaded))
        (users (tbl db)) = None ->
      login' data db
      = (Raise (AuthControllerException
                  {[ "invalid" := MsgStr "Incorrect user and/or password" ]}),
         logged (OpQuery TUser) db)).
Proof.
  intros Hload Henc. rewrite login_run, Hload, Henc.
  split; [|split].
  - intros u -> ->. reflexivity.
  - intros u -> ->. reflexivity.
  - intros ->. reflexivity.
Qed.

End Login.

Lemma login_cases_witness :
  login Sample.LoginSchema_load Sample.checkpw Sample.good_login Sample.db0
  = (Return (Some Sample.alice), logged (OpQuery TUser) Sample.db0)
  /\ login Sample.LoginSchema_load Sample.checkpw Sample.wrong_password_login Sample.db0
     = (Raise (AuthControllerException
                 {[ "invalid" := MsgStr "Incorrect user and/or password" ]}),
        logged (OpQuery TUser) Sample.db0)
  /\ login Sample.LoginSchema_load Sample.checkpw Sample.unknown_user_login Sample.db0
     = (Raise (AuthControllerException
                 {[ "invalid" := MsgStr "Incorrect user and/or password" ]}),
        logged (OpQuery TUser) Sample.db0).
Proof.
  split; [|split].
  - apply (proj1 (login_cases Sample.LoginSchema_load Sample.checkpw Sample.good_login
                    (LoginData.mk "alice@example.org" "a") Sample.db0
                    eq_refl eq_refl) Sample.alice); reflexivity.
  - apply (proj1 (proj2 (login_cases Sample.LoginSchema_load Sample.checkpw
                           Sample.wrong_password_login
                           (LoginData.mk "alice@example.org" "b") Sample.db0
                           eq_refl eq_refl)) Sample.alice); reflexivity.
  - apply (proj2 (proj2 (login_cases Sample.LoginSchema_load Sample.checkpw
                           Sample.unknown_user_login
                           (LoginData.mk "carol@example.org" "a") Sample.db0
                           eq_refl eq_refl))).
    reflexivity.
Defined.

(** C4: the payload below passes the schema, names an email that no user
    has, and its password is a lone surrogate.  The password is encoded
    before [user.password] is read, the [UnicodeEncodeError] of the encoding
    is none of the exceptions the [except] clause names, and it reaches the
    caller: for this absent user [login] does not raise the authentication
    error that C4 says it raises.  This holds whatever the hash check
    does. *)
Theorem login_with_lone_surrogate (checkpw : string -> string -> outcome bool) :
  Sample.LoginSchema_load Sample.surrogate_login
  = inr (LoginData.mk "carol@example.org" Sample.lone_surrogate)
  /\ List.find (fun u => String.eqb (User.email u) "carol@example.org")
       (users (tbl Sample.db0)) = None
  /\ login Sample.LoginSchema_load checkpw Sample.surrogate_login Sample.db0
     = (Raise UnicodeEncodeError, logged (OpQuery TUser) Sample.db0).
Proof. split; [reflexivity|]. split; reflexivity. Qed.

(** * Further properties of the controllers *)

(** ** Session ids *)

Lemma in_firstn_in {A} (n : nat) (l : list A) (x : A) : In x (firstn n l) -> In x l.
Proof.
  revert l. induction n as [|n IH]; intros [|a l]; simpl; try tauto.
  intros [->|H]; [by left|right; by apply IH].
Qed.

Lemma str_replace_char_app (old : ascii) (s t : string) :
  Py.str_replace_char old "" (s +:+ t)
  = Py.str_replace_char old "" s +:+ Py.str_replace_char old "" t.
Proof.
  induction s as [|c s IH]; [reflexivity|].
  change (String c s +:+ t) with (String c (s +:+ t)).
  simpl. destruct (Ascii.eqb c old).
  - change (String.append "" ?x) with x. exact IH.
  - change (String c ?x +:+ ?y) with (String c (x +:+ y)). by rewrite IH.
Qed.

Lemma str_slice_to_app (n : nat) (s t : string) :
  String.length (Py.str_slice_to n s) = n ->
  Py.str_slice_to n (s +:+ t) = Py.str_slice_to n s.
Proof.
  revert s. induction n as [|n IH]; intros [|c s]; simpl; try reflexivity; try discriminate.
  intros [= H]. change (String c s +:+ t) with (String c (s +:+ t)). simpl.
  by rewrite IH.
Qed.

(** X4: a session id derived from a start time holds no dot: each of its
    characters is a character of the text of the epoch seconds other than
    '.'. *)
Theorem gen_session_id_no_dot (ts : string) (c : ascii) :
  In c (list_ascii_of_string (gen_session_id ts)) ->
  c <> "."%char /\ In c (list_ascii_of_string ts).
Proof.
  rewrite gen_session_id_refines. unfold spec_session_id.
  rewrite list_ascii_of_string_of_list_ascii.
  intros H. apply in_firstn_in, filter_In in H as [Hin Hc].
  split; [|exact Hin].
  apply negb_true_iff in Hc. intros ->. by rewrite Ascii.eqb_refl in Hc.
Qed.

Lemma gen_session_id_no_dot_witness :
  "1"%char <> "."%char /\ In "1"%char (list_ascii_of_string "1609459200.5").
Proof.
  apply (gen_session_id_no_dot "1609459200.5" "1"%char). left. reflexivity.
Defined.

(** X5: once the text of the epoch seconds yields a full id of 12
    characters, whatever follows in the text is ignored: two start times
    whose texts differ only after that point get the same session id. *)
Theorem gen_session_id_ignores_tail (ts extra : string) :
  String.length (gen_session_id ts) = 12%nat ->
  gen_session_id (ts +:+ extra) = gen_session_id ts.
Proof.
  unfold gen_session_id. intros H.
  rewrite str_replace_char_app. by apply str_slice_to_app.
Qed.

Lemma gen_session_id_ignores_tail_witness :
  gen_session_id ("1609459200.12" +:+ "3456") = gen_session_id "1609459200.12".
Proof. apply (gen_session_id_ignores_tail "1609459200.12" "3456"). reflexivity. Defined.

(** ** CSV uploads, continued *)

Section CsvUploadsMore.

Variable _resolve_date_from_csv_row : CsvRow.t -> datetime.
Variable timestamp_str : datetime -> string.

Local Abbreviation process_csv' := (process_csv _resolve_date_from_csv_row timestamp_str).
Local Abbreviation csv_session_id' :=
  (csv_session_id _resolve_date_from_csv_row timestamp_str).

(** The upload whose session id is taken stops after the lookup. *)
Lemma process_csv_skip (user : User.t) (row : CsvRow.t) (rest : list CsvRow.t) (db : DB)
    (s : ODBSession.t) :
  List.find
    (fun s => String.eqb (ODBSession.id s)
                (gen_session_id (timestamp_str (_resolve_date_from_csv_row row))))
    (odb_session (tbl db)) = Some s ->
  process_csv' user (row :: rest) db = (Return tt, logged (OpQuery TSession) db).
Proof.
  intros H. unfold process_csv. cbv zeta.
  unfold bind at 1. unfold iloc0, ret at 1.
  unfold bind at 1. unfold query_session_by_id at 1. by rewrite H.
Qed.

(** [process_csv] appends to the session table, one row at most. *)
Lemma process_csv_appends_sessions (user : User.t) (csv : list CsvRow.t) (db : DB) :
  exists appended,
    odb_session (tbl (snd (process_csv' user csv db))) = odb_session (tbl db) ++ appended.
Proof.
  destruct csv as [|row rest]; [exists []; by rewrite app_nil_r|].
  destruct (List.find
              (fun s => String.eqb (ODBSession.id s)
                          (gen_session_id (timestamp_str (_resolve_date_from_csv_row row))))
              (odb_session (tbl db))) as [s|] eqn:E.
  - rewrite (process_csv_skip user row rest db s E). exists []. by rewrite app_nil_r.
  - rewrite (process_csv_fresh _ _ user row rest db E). by eexists.
Qed.

(** X2: [process_csv] keeps the ids of the session table pairwise distinct:
    the row it adds has an id that the lookup just found absent. *)
Theorem process_csv_keeps_ids_unique (user : User.t) (csv : list CsvRow.t) (db : DB) :
  NoDup (List.map ODBSession.id (odb_session (tbl db))) ->
  NoDup (List.map ODBSession.id (odb_session (tbl (snd (process_csv' user csv db))))).
Proof.
  intros Hnd. destruct csv as [|row rest]; [exact Hnd|].
  destruct (List.find
              (fun s => String.eqb (ODBSession.id s)
                          (gen_session_id (timestamp_str (_resolve_date_from_csv_row row))))
              (odb_session (tbl db))) as [s|] eqn:E.
  - by rewrite (process_csv_skip user row rest db s E).
  - rewrite (process_csv_fresh _ _ user row rest db E). simpl.
    rewrite map_app. simpl. apply NoDup_app. split; [exact Hnd|]. split.
    + intros x Hx [Heq|[]]%list_elem_of_In. subst x.
      apply list_elem_of_In, in_map_iff in Hx as (s & Hid & Hin).
      pose proof (find_none _ _ E s Hin) as Hne. simpl in Hne.
      apply String.eqb_neq in Hne. congruence.
    + apply NoDup_singleton.
Qed.

(** X3: after an upload went through [process_csv], any upload that derives
    the same session id, the same file again or another file or user whose
    first row maps to that id, is skipped: it returns after the lookup and
    changes no table. *)
Theorem process_csv_second_upload_skipped
    (user user' : User.t) (csv csv' : list CsvRow.t) (sid : string) (db : DB) :
  csv_session_id' csv = Some sid ->
  csv_session_id' csv' = Some sid ->
  process_csv' user' csv' (snd (process_csv' user csv db))
  = (Return tt, logged (OpQuery TSession) (snd (process_csv' user csv db))).
Proof.
  intros H H'.
  destruct (csv_session_id_first _ _ _ _ H) as (row & rest & -> & Hsid).
  destruct (csv_session_id_first _ _ _ _ H') as (row' & rest' & -> & Hsid').
  rewrite Hsid in Hsid'.
  destruct (List.find
              (fun s => String.eqb (ODBSession.id s)
                          (gen_session_id (timestamp_str (_resolve_date_from_csv_row row))))
              (odb_session (tbl db))) as [s|] eqn:E.
  - rewrite (process_csv_skip user row rest db s E). simpl.
    apply (process_csv_skip user' row' rest' _ s). simpl. by rewrite <- Hsid'.
  - rewrite (process_csv_fresh _ _ user row rest db E). simpl.
    eapply process_csv_skip. simpl. rewrite <- Hsid', (find_app_none _ _ _ E). simpl.
    by rewrite String.eqb_refl.
Qed.

End CsvUploadsMore.

Lemma process_csv_keeps_ids_unique_witness :
  List.map ODBSession.id
    (odb_session
       (tbl (snd (process_csv Sample.resolve_date Sample.timestamp_str Sample.alice
                    Sample.csv db_later))))
  = ["1609459200000"; "1609459300000"; "16094592000"]
  /\ NoDup
       (List.map ODBSession.id
          (odb_session
             (tbl (snd (process_csv Sample.resolve_date Sample.timestamp_str Sample.alice
                          Sample.csv db_later)))))
  /\ List.map ODBSession.id
       (odb_session
          (tbl (snd (process_csv Sample.resolve_date Sample.timestamp_str Sample.bob
                       Sample.csv Sample.db_after_resolution))))
     = ["1609459200000"; "16094592000"]
  /\ NoDup
       (List.map ODBSession.id
          (odb_session
             (tbl (snd (process_csv Sample.resolve_date Sample.timestamp_str Sample.bob
                          Sample.csv Sample.db_after_resolution))))).
Proof.
  split; [reflexivity|]. split; [|split; [reflexivity|]].
  - apply (process_csv_keeps_ids_unique Sample.resolve_date Sample.timestamp_str
             Sample.alice Sample.csv db_later).
    repeat (apply NoDup_cons_2; [by rewrite !list_elem_of_In; simpl; intuition discriminate|]).
    apply NoDup_nil_2.
  - apply (process_csv_keeps_ids_unique Sample.resolve_date Sample.timestamp_str
             Sample.bob Sample.csv Sample.db_after_resolution).
    repeat (apply NoDup_cons_2; [by rewrite !list_elem_of_In; simpl; intuition discriminate|]).
    apply NoDup_nil_2.
Defined.

Lemma process_csv_second_upload_skipped_witness :
  process_csv Sample.resolve_date Sample.timestamp_str Sample.bob [Sample.row1]
    (snd (process_csv Sample.resolve_date Sample.timestamp_str Sample.alice Sample.csv
            Sample.db0))
  = (Return tt,
     logged (OpQuery TSession)
       (snd (process_csv Sample.resolve_date Sample.timestamp_str Sample.alice Sample.csv
               Sample.db0))).
Proof.
  apply (process_csv_second_upload_skipped Sample.resolve_date Sample.timestamp_str
           Sample.alice Sample.bob Sample.csv [Sample.row1] "16094592000" Sample.db0);
    reflexivity.
Defined.

(** ** Live requests, continued *)

(** [l'] keeps the rows of [l], in place, and has at most one more. *)
Definition extends_by_at_most_one {A} (l l' : list A) : Prop :=
  exists added, l' = l ++ added /\ (List.length added <= 1)%nat.

Lemma extends_refl {A} (l : list A) : extends_by_at_most_one l l.
Proof. exists []. split; [by rewrite app_nil_r|simpl; lia]. Qed.


Lemma any_filter_iff (f : string -> bool) (l : list string) :
  Py.any_filter f l = true <-> exists k, In k l /\ f k = true /\ k <> "".
Proof.
  unfold Py.any_filter. rewrite existsb_exists. split.
  - intros (k & Hin & Ht). apply filter_In in Hin as [Hin Hf].
    exists k. repeat split; try assumption. by apply truthy_iff.
  - intros (k & Hin & Hf & Hne). exists k. split; [by apply filter_In|by apply truthy_iff].
Qed.

Lemma resolve_user_outcome (data : gmap string string) (db : DB) :
  _resolve_user data db = (Raise (ODBControllerError "User email not found"), db)
  \/ _resolve_user data db
     = (Raise (ODBControllerError "User does not exist"), logged (OpQuery TUser) db)
  \/ exists e u,
       data !! "eml" = Some e /\ e <> ""
       /\ List.find (fun u => String.eqb (User.email u) e) (users (tbl db)) = Some u
       /\ _resolve_user data db = (Return u, logged (OpQuery TUser) db).
Proof.
  destruct (data !! "eml") as [e|] eqn:He.
  - destruct (String.eqb_spec e "") as [->|Hne].
    + left. apply resolve_user_not_found. by rewrite He.
    + right. rewrite (resolve_user_query _ _ _ He Hne).
      destruct (List.find _ _) as [u|] eqn:Hu; [right|by left].
      exists e, u. by rewrite Hu.
  - left. apply resolve_user_not_found. by rewrite He.
Qed.

(** X13: a user that [_resolve_user] returns is a stored user whose email is
    the non-empty 'eml' value of the request, the first such user; resolving
    cost one query and changed no table. *)
Theorem resolve_user_sound (data : gmap string string) (db db' : DB) (u : User.t) :
  _resolve_user data db = (Return u, db') ->
  data !! "eml" = Some (User.email u)
  /\ User.email u <> ""
  /\ In u (users (tbl db))
  /\ List.find (fun x => String.eqb (User.email x) (User.email u)) (users (tbl db)) = Some u
  /\ db' = logged (OpQuery TUser) db.
Proof.
  intros H.
  destruct (resolve_user_outcome data db) as [H'|[H'|(e & u' & He & Hne & Hfind & H')]];
    rewrite H' in H; try discriminate.
  injection H as -> <-.
  pose proof (find_some _ _ Hfind) as [Hin Heq]. apply String.eqb_eq in Heq. subst e.
  by repeat split.
Qed.

Lemma resolve_user_sound_witness :
  Sample.live_request !! "eml" = Some (User.email Sample.alice)
  /\ In Sample.alice (users (tbl Sample.db0)).
Proof.
  destruct (resolve_user_sound Sample.live_request Sample.db0
              (logged (OpQuery TUser) Sample.db0) Sample.alice) as (He & _ & Hin & _).
  - reflexivity.
  - split; [exact He|exact Hin].
Defined.

Section LiveRequestsMore.

Variables LATITUDE LONGITUDE LEVEL LOAD RPM : string.
Variable FULL_NAME : string.

Local Abbreviation process_sensor_params' :=
  (process_sensor_params LATITUDE LONGITUDE LEVEL LOAD RPM FULL_NAME).
Local Abbreviation has_full_name_keys' := (has_full_name_keys FULL_NAME).

(** X6: a request counts as a metadata request exactly when one of its keys
    is non-empty and starts with the sensor-full-name prefix. *)
Theorem has_full_name_keys_iff (data : gmap string string) :
  has_full_name_keys' data = true
  <-> exists k, is_Some (data !! k) /\ String.prefix FULL_NAME k = true /\ k <> "".
Proof.
  unfold has_full_name_keys. rewrite any_filter_iff.
  split; intros (k & Hin & Hm & Hne); exists k; (split; [by apply in_dict_keys|done]).
Qed.

(** The ways a live request can go. *)
Lemma process_sensor_params_cases
    (utcnow now : datetime) (data : gmap string string) (db : DB) :
  (~ loggable data
   /\ process_sensor_params' utcnow now data db = (Raise TypeError, db))
  \/ (loggable data /\ has_full_name_keys' data = true
      /\ process_sensor_params' utcnow now data db = (Return tt, db))
  \/ (loggable data /\ has_full_name_keys' data = false
      /\ exists e db1,
           _resolve_user data db = (Raise e, db1)
           /\ process_sensor_params' utcnow now data db = (Raise e, db1))
  \/ (loggable data /\ has_full_name_keys' data = false
      /\ exists u db1,
           _resolve_user data db = (Return u, db1)
           /\ data !! "session" = None
           /\ process_sensor_params' utcnow now data db = (Raise (KeyError "session"), db1))
  \/ (loggable data /\ has_full_name_keys' data = false
      /\ exists u db1 token,
           _resolve_user data db = (Return u, db1)
           /\ data !! "session" = Some token
           /\ process_sensor_params' utcnow now data db
              = (Raise IntegrityError, logged (OpQuery TSession) db1))
  \/ (loggable data /\ has_full_name_keys' data = false
      /\ exists u db1 token session db2,
           _resolve_user data db = (Return u, db1)
           /\ data !! "session" = Some token
           /\ SessionController.get_or_create (User.id u) utcnow token db1
              = (Return session, db2)).
Proof.
  destruct (data !! "event") as [ev|] eqn:Hev.
  { left. split; [intros [? _]; congruence|].
    unfold process_sensor_params. apply logger_type_error. left. by rewrite Hev. }
  destruct (data !! "self") as [sf|] eqn:Hsf.
  { left. split; [intros [_ ?]; congruence|].
    unfold process_sensor_params. apply logger_type_error. right. by rewrite Hsf. }
  assert (loggable data) as Hlog by done. right.
  destruct (has_full_name_keys' data) eqn:Hmeta.
  { left. repeat split; try done. unfold process_sensor_params.
    rewrite logger_then by exact Hlog. by rewrite Hmeta. }
  right. destruct (_resolve_user data db) as [[u|e] db1] eqn:Hu.
  - right. destruct (data !! "session") as [token|] eqn:Hs.
    + right. destruct (get_or_create_outcome (User.id u) utcnow token db1) as [[s Hg]|Hg].
      * right. repeat split; try done.
        destruct (SessionController.get_or_create (User.id u) utcnow token db1)
          as [o db2] eqn:Hg'.
        simpl in Hg. subst o. by exists u, db1, token, s, db2.
      * left. repeat split; try done. exists u, db1, token. repeat split.
        unfold process_sensor_params. rewrite logger_then by exact Hlog. rewrite Hmeta.
        unfold bind at 1. rewrite Hu.
        unfold bind at 1. unfold dict_getitem at 1. rewrite Hs. unfold ret at 1.
        unfold bind at 1. by rewrite Hg.
    + left. repeat split; try done. exists u, db1. repeat split.
      unfold process_sensor_params. rewrite logger_then by exact Hlog. rewrite Hmeta.
      unfold bind. rewrite Hu. unfold dict_getitem. by rewrite Hs.
  - left. repeat split; try done. exists e, db1. split; [done|].
    unfold process_sensor_params. rewrite logger_then by exact Hlog. rewrite Hmeta.
    unfold bind. by rewrite Hu.
Qed.



Lemma gps_rows_of_short (data : gmap string string) (s : ODBSession.t) (now : datetime) :
  (List.length (gps_rows_of LATITUDE LONGITUDE data s now) <= 1)%nat.
Proof. unfold gps_rows_of. destruct (data !! LATITUDE), (data !! LONGITUDE); simpl; lia. Qed.

Lemma rows_of_short (key : string) (data : gmap string string) (s : ODBSession.t)
    (now : datetime) :
  (List.length (rows_of key data s now) <= 1)%nat.
Proof. unfold rows_of. destruct (data !! key); simpl; lia. Qed.

(** X9: whatever the request and however it ends, [process_sensor_params]
    leaves the user table and the speed table as they were, and every other
    table keeps its rows, in place, and gains at most one. *)
Theorem process_sensor_params_append_only
    (utcnow now : datetime) (data : gmap string string) (db : DB) :
  users (tbl (snd (process_sensor_params' utcnow now data db))) = users (tbl db)
  /\ speed_readings (tbl (snd (process_sensor_params' utcnow now data db)))
     = speed_readings (tbl db)
  /\ extends_by_at_most_one (odb_session (tbl db))
       (odb_session (tbl (snd (process_sensor_params' utcnow now data db))))
  /\ extends_by_at_most_one (gps_readings (tbl db))
       (gps_readings (tbl (snd (process_sensor_params' utcnow now data db))))
  /\ extends_by_at_most_one (fuel_level_readings (tbl db))
       (fuel_level_readings (tbl (snd (process_sensor_params' utcnow now data db))))
  /\ extends_by_at_most_one (engine_load_readings (tbl db))
       (engine_load_readings (tbl (snd (process_sensor_params' utcnow now data db))))
  /\ extends_by_at_most_one (engine_rpm_readings (tbl db))
       (engine_rpm_readings (tbl (snd (process_sensor_params' utcnow now data db)))).
Proof.
  destruct (process_sensor_params_cases utcnow now data db)
    as [[_ ->]|[(_ & _ & ->)|[(_ & _ & e & db1 & Hu & ->)
        |[(_ & _ & u & db1 & Hu & _ & ->)|[(_ & _ & u & db1 & token & Hu & _ & ->)
        |(Hlog & Hmeta & u & db1 & token & s & db2 & Hu & Hs & Hg)]]]]]; simpl.
  - repeat split; apply extends_refl.
  - repeat split; apply extends_refl.
  - apply resolve_user_tables in Hu. rewrite Hu. repeat split; apply extends_refl.
  - apply resolve_user_tables in Hu. rewrite Hu. repeat split; apply extends_refl.
  - apply resolve_user_tables in Hu. rewrite Hu. repeat split; apply extends_refl.
  - rewrite (process_sensor_params_resolved _ _ _ _ _ _ _ _ _ _ _ _ _ _ _
               Hlog Hmeta Hu Hs Hg).
    destruct (get_or_create_returns _ _ _ _ _ _ Hg)
      as (_ & _ & _ & _ & Hss & Hus & Hgps & Hl & Hr & Hsp & Hf).
    apply resolve_user_tables in Hu. rewrite Hu in *. simpl.
    rewrite Hus, Hsp, Hgps, Hl, Hr, Hf.
    split; [done|]. split; [done|]. split.
    { destruct Hss as [->| ->]; [apply extends_refl|]. exists [s]. split; [done|simpl; lia]. }
    split; [eexists; split; [reflexivity|apply gps_rows_of_short]|].
    split; [eexists; split; [reflexivity|apply rows_of_short]|].
    split; eexists; (split; [reflexivity|apply rows_of_short]).
Qed.

(** X11: when [process_sensor_params] raises, the exception is the
    [TypeError] of the logging call (a key 'event' or 'self'), one of the two
    domain errors of user resolution, the [KeyError] of the missing 'session'
    key, or the [IntegrityError] of a session insert that the primary key
    refuses; in each case no table has changed: a failing request persists
    nothing. *)
Theorem process_sensor_params_failure
    (utcnow now : datetime) (data : gmap string string) (db db' : DB) (e : exn) :
  process_sensor_params' utcnow now data db = (Raise e, db') ->
  tbl db' = tbl db
  /\ (e = TypeError
      \/ e = ODBControllerError "User email not found"
      \/ e = ODBControllerError "User does not exist"
      \/ e = KeyError "session"
      \/ e = IntegrityError).
Proof.
  intros H.
  destruct (process_sensor_params_cases utcnow now data db)
    as [[_ H']|[(_ & _ & H')|[(_ & _ & e1 & db1 & Hu & H')
        |[(_ & _ & u & db1 & Hu & _ & H')|[(_ & _ & u & db1 & token & Hu & _ & H')
        |(Hlog & Hmeta & u & db1 & token & s & db2 & Hu & Hs & Hg)]]]]].
  - rewrite H' in H. injection H as <- <-. tauto.
  - rewrite H' in H. discriminate.
  - rewrite H' in H. injection H as <- <-.
    split; [by apply resolve_user_tables in Hu|].
    destruct (resolve_user_outcome data db) as [Ho|[Ho|(? & ? & _ & _ & _ & Ho)]];
      rewrite Ho in Hu; try discriminate; injection Hu as <- _; tauto.
  - rewrite H' in H. injection H as <- <-.
    split; [by apply resolve_user_tables in Hu|tauto].
  - rewrite H' in H. injection H as <- <-.
    split; [by apply resolve_user_tables in Hu|tauto].
  - rewrite (process_sensor_params_resolved _ _ _ _ _ _ _ _ _ _ _ _ _ _ _
               Hlog Hmeta Hu Hs Hg) in H.
    discriminate.
Qed.



End LiveRequestsMore.




(** [alice] sends a live request with the token of [bob]'s session. *)
Definition taken_token_request : gmap string string :=
  {[ "eml" := "alice@example.org"; "session" := "1609459300000"; "kc" := "1500" ]}.

Lemma process_sensor_params_failure_witness :
  (tbl (logged (OpQuery TUser) Sample.db0) = tbl Sample.db0
   /\ (KeyError "session" = TypeError
       \/ KeyError "session" = ODBControllerError "User email not found"
       \/ KeyError "session" = ODBControllerError "User does not exist"
       \/ KeyError "session" = KeyError "session"
       \/ KeyError "session" = IntegrityError))
  /\ (tbl Sample.db0 = tbl Sample.db0
      /\ (TypeError = TypeError
          \/ TypeError = ODBControllerError "User email not found"
          \/ TypeError = ODBControllerError "User does not exist"
          \/ TypeError = KeyError "session"
          \/ TypeError = IntegrityError))
  /\ (tbl (logged (OpQuery TSession) (logged (OpQuery TUser) Sample.db_with_bob_session))
      = tbl Sample.db_with_bob_session
      /\ (IntegrityError = TypeError
          \/ IntegrityError = ODBControllerError "User email not found"
          \/ IntegrityError = ODBControllerError "User does not exist"
          \/ IntegrityError = KeyError "session"
          \/ IntegrityError = IntegrityError)).
Proof.
  split; [|split].
  - apply (process_sensor_params_failure Sample.LATITUDE Sample.LONGITUDE Sample.LEVEL
             Sample.LOAD Sample.RPM Sample.FULL_NAME 40 41 Sample.no_session_request
             Sample.db0 (logged (OpQuery TUser) Sample.db0) (KeyError "session")).
    reflexivity.
  - apply (process_sensor_params_failure Sample.LATITUDE Sample.LONGITUDE Sample.LEVEL
             Sample.LOAD Sample.RPM Sample.FULL_NAME 40 41 Sample.live_request_event
             Sample.db0 Sample.db0 TypeError).
    reflexivity.
  - apply (process_sensor_params_failure Sample.LATITUDE Sample.LONGITUDE Sample.LEVEL
             Sample.LOAD Sample.RPM Sample.FULL_NAME 40 41 taken_token_request
             Sample.db_with_bob_session
             (logged (OpQuery TSession) (logged (OpQuery TUser) Sample.db_with_bob_session))
             IntegrityError).
    reflexivity.
Defined.



(** ** The logging call *)

(** X22: a live request with a key 'event' or 'self' is refused by the
    logging call that opens [process_sensor_params], with [TypeError],
    before the test for metadata keys and before any operation on the
    store, which is left as it was, whatever else the request carries. *)
Theorem process_sensor_params_type_error
    (LATITUDE LONGITUDE LEVEL LOAD RPM FULL_NAME : string)
    (utcnow now : datetime) (data : gmap string string) (db : DB) :
  is_Some (data !! "event") \/ is_Some (data !! "self") ->
  process_sensor_params LATITUDE LONGITUDE LEVEL LOAD RPM FULL_NAME utcnow now data db
  = (Raise TypeError, db).
Proof. intros H. unfold process_sensor_params. by apply logger_type_error. Qed.

Lemma process_sensor_params_type_error_witness :
  process_sensor_params Sample.LATITUDE Sample.LONGITUDE Sample.LEVEL Sample.LOAD Sample.RPM
    Sample.FULL_NAME 40 41 (<["self" := "1"]> Sample.live_request) Sample.db0
  = (Raise TypeError, Sample.db0).
Proof.
  apply (process_sensor_params_type_error Sample.LATITUDE Sample.LONGITUDE Sample.LEVEL
           Sample.LOAD Sample.RPM Sample.FULL_NAME 40 41
           (<["self" := "1"]> Sample.live_request) Sample.db0).
  right. exists "1". reflexivity.
Defined.

(** ** Login, continued *)

Section LoginMore.

Variable LoginSchema_load : gmap string string -> gmap string msgval + LoginData.t.
Variable checkpw : string -> string -> outcome bool.

Local Abbreviation login' := (login LoginSchema_load checkpw).

(** X14: a payload the schema rejects makes [login] raise an
    [AuthControllerException] that carries the schema's messages; no user is
    looked up: the store, the record of its operations included, is as it
    was. *)
Theorem login_invalid_payload
    (data : gmap string string) (messages : gmap string msgval) (db : DB) :
  LoginSchema_load data = inl messages ->
  login' data db = (Raise (AuthControllerException messages), db).
Proof. intros H. by rewrite login_run, H. Qed.

(** X15: whenever [login] returns, it returns a stored user, never [None]:
    the schema accepted the payload, the password encoded, the user's email
    is the one loaded, and the hash check of the loaded password against the
    user's stored hash returned true. *)
Theorem login_sound (data : gmap string string) (db db' : DB) (r : option User.t) :
  login' data db = (Return r, db') ->
  exists loaded u,
    LoginSchema_load data = inr loaded
    /\ r = Some u
    /\ In u (users (tbl db))
    /\ User.email u = LoginData.email loaded
    /\ has_surrogate (LoginData.password loaded) = false
    /\ checkpw (LoginData.password loaded) (User.password u) = Return true.
Proof.
  rewrite login_run. destruct (LoginSchema_load data) as [messages|loaded]; [discriminate|].
  destruct (has_surrogate _) eqn:Henc; [discriminate|].
  destruct (List.find _ _) as [u|] eqn:Hu; [|discriminate].
  destruct (checkpw _ _) as [[|]|e] eqn:Hpw; try discriminate.
  - intros [= <- _]. exists loaded, u.
    pose proof (find_some _ _ Hu) as [Hin Heq]. apply String.eqb_eq in Heq.
    by repeat split.
  - by destruct (is_assertion_or_attribute_error e).
Qed.

(** X16: [login] only reads the store, issuing at most one query, whatever
    its outcome; and an exception it raises is an [AuthControllerException],
    the [UnicodeEncodeError] of a password that does not encode, or an
    exception that the hash check raised: the [AttributeError] of an absent
    user and the [AssertionError] of a failed check are turned into the
    authentication error. *)
Theorem login_read_only (data : gmap string string) (db : DB) :
  tbl (snd (login' data db)) = tbl db
  /\ (log (snd (login' data db)) = log db
      \/ log (snd (login' data db)) = log db ++ [OpQuery TUser])
  /\ (forall e, fst (login' data db) = Raise e ->
      (exists m, e = AuthControllerException m)
      \/ e = UnicodeEncodeError
      \/ (is_assertion_or_attribute_error e = false
          /\ exists password hashed, checkpw password hashed = Raise e)).
Proof.
  rewrite login_run. destruct (LoginSchema_load data) as [messages|loaded].
  { simpl. split; [done|]. split; [by left|]. intros e [= <-]. left. by eexists. }
  destruct (has_surrogate _).
  { simpl. split; [done|]. split; [by right|]. intros e [= <-]. tauto. }
  destruct (List.find _ _) as [u|].
  - destruct (checkpw _ _) as [[|]|e0] eqn:Hpw.
    + simpl. split; [done|]. split; [by right|]. discriminate.
    + simpl. split; [done|]. split; [by right|]. intros e [= <-]. left. by eexists.
    + destruct (is_assertion_or_attribute_error e0) eqn:Hc; simpl;
        (split; [done|]); (split; [by right|]); intros e [= <-].
      * left. by eexists.
      * right. right. split; [done|]. by eexists _, _.
  - simpl. split; [done|]. split; [by right|]. intros e [= <-]. left. by eexists.
Qed.

(** X23: a payload the schema accepts and whose password has a lone
    surrogate makes [login] raise [UnicodeEncodeError] after the user
    lookup, whether or not a user has the email and whatever the stored
    hash: the exception is not turned into the authentication error. *)
Theorem login_unencodable_password
    (data : gmap string string) (loaded : LoginData.t) (db : DB) :
  LoginSchema_load data = inr loaded ->
  has_surrogate (LoginData.password loaded) = true ->
  login' data db = (Raise UnicodeEncodeError, logged (OpQuery TUser) db).
Proof. intros H Henc. by rewrite login_run, H, Henc. Qed.

End LoginMore.

(** A payload without password. *)
Definition incomplete_login : gmap string string :=
  {[ "email" := "alice@example.org" ]}.

(** [alice] sends a password with a lone surrogate. *)
Definition alice_surrogate_login : gmap string string :=
  {[ "email" := "alice@example.org"; "password" := Sample.lone_surrogate ]}.

Lemma login_invalid_payload_witness :
  login Sample.LoginSchema_load Sample.checkpw incomplete_login Sample.db0
  = (Raise (AuthControllerException
              {[ "password" := MsgList ["Missing data for required field."] ]}),
     Sample.db0).
Proof.
  apply (login_invalid_payload Sample.LoginSchema_load Sample.checkpw incomplete_login
           {[ "password" := MsgList ["Missing data for required field."] ]} Sample.db0).
  reflexivity.
Defined.

Lemma login_sound_witness :
  exists loaded u,
    Sample.LoginSchema_load Sample.good_login = inr loaded
    /\ Some Sample.alice = Some u
    /\ In u (users (tbl Sample.db0))
    /\ User.email u = LoginData.email loaded
    /\ has_surrogate (LoginData.password loaded) = false
    /\ Sample.checkpw (LoginData.password loaded) (User.password u) = Return true.
Proof.
  apply (login_sound Sample.LoginSchema_load Sample.checkpw Sample.good_login Sample.db0
           (logged (OpQuery TUser) Sample.db0) (Some Sample.alice)).
  reflexivity.
Defined.

Lemma login_unencodable_password_witness :
  login Sample.LoginSchema_load Sample.checkpw alice_surrogate_login Sample.db0
  = (Raise UnicodeEncodeError, logged (OpQuery TUser) Sample.db0).
Proof.
  apply (login_unencodable_password Sample.LoginSchema_load Sample.checkpw
           alice_surrogate_login
           (LoginData.mk "alice@example.org" Sample.lone_surrogate) Sample.db0);
    reflexivity.
Defined.
